(** * MCP prompt server: name validation, catalog, loader and dispatcher

    A shallow embedding of [mcp_server/mcp_prompt_server.py] and of the
    configuration generator [generate_config.py].

    Conventions of the embedding.
    - A Python [str] is a [string]: the sequence of the bytes of its UTF-8
      encoding.  Every string operation the server uses (comparison with an
      ASCII literal, [startswith] and slicing by an ASCII prefix, [in],
      [rfind] and [replace] of an ASCII character, [sorted]) gives the same
      answer on code points and on UTF-8 bytes.
    - The values of the [arguments] dictionary are JSON values ([pyval]).
    - The prompts directory is an explicit value ([prompts_dir]) passed to
      the functions that read the module-level [PROMPTS_DIR].
    - A function that can raise returns [result]: [Raise e] or [Return v].
    - The prompts directory can be listed and searched.  What [stat] does
      with a child that the directory does not hold (report it missing, or
      refuse the path with another error) is a parameter, [stat_fault]. *)

From Stdlib Require Import Ascii String NArith Lia DecimalString.
From stdpp Require Import base strings list gmap sorting.

Set Warnings "-register-all".

(** ** Python string built-ins *)

Module Py.

Definition chars (s : string) : list ascii := list_ascii_of_string s.

(** [len(s)] *)
Definition len (s : string) : nat := String.length s.

(** [s.startswith(p)] *)
Fixpoint startswith (p s : string) : bool :=
  match p, s with
  | EmptyString, _ => true
  | String _ _, EmptyString => false
  | String a p', String b s' => Ascii.eqb a b && startswith p' s'
  end.

(** [s[n:]] for [0 <= n] *)
Fixpoint slice_from (n : nat) (s : string) : string :=
  match n, s with
  | O, _ => s
  | S _, EmptyString => EmptyString
  | S n', String _ s' => slice_from n' s'
  end.

(** [s[:n]] for [0 <= n] *)
Fixpoint slice_to (n : nat) (s : string) : string :=
  match n, s with
  | O, _ => EmptyString
  | S _, EmptyString => EmptyString
  | S n', String a s' => String a (slice_to n' s')
  end.

(** [sub in s] *)
Fixpoint contains (sub s : string) : bool :=
  startswith sub s ||
  match s with
  | EmptyString => false
  | String _ s' => contains sub s'
  end.

(** [s.endswith(suffix)] *)
Definition endswith (suffix s : string) : bool :=
  (len suffix <=? len s)%nat &&
  String.eqb (slice_from (len s - len suffix) s) suffix.

(** [s.rfind(c)] for a one-character [c]; [None] stands for [-1]. *)
Fixpoint rfind (c : ascii) (s : string) : option nat :=
  match s with
  | EmptyString => None
  | String a s' =>
      match rfind c s' with
      | Some i => Some (S i)
      | None => if Ascii.eqb a c then Some O else None
      end
  end.

(** [s.replace(a, b)] for one-character [a] and [b] *)
Fixpoint replace (a b : ascii) (s : string) : string :=
  match s with
  | EmptyString => EmptyString
  | String c s' => String (if Ascii.eqb c a then b else c) (replace a b s')
  end.

(** [sep.join(l)] *)
Fixpoint join (sep : string) (l : list string) : string :=
  match l with
  | [] => EmptyString
  | [x] => x
  | x :: l' => x +:+ sep +:+ join sep l'
  end.

(** The line feed, written [\n] in the source. *)
Definition LF : string := String (ascii_of_nat 10) EmptyString.
(** The carriage return. *)
Definition CR : ascii := ascii_of_nat 13.

(** [sorted(l)] on strings.  Python compares strings code point by code
    point, which is the byte order of their UTF-8 encodings.  The order
    is total and antisymmetric, so the sorted list does not depend on
    the sorting algorithm. *)
Definition sorted (l : list string) : list string :=
  merge_sort String.le l.

End Py.

(** ** Regular expressions of the [re] module

    Only the constructs the server's pattern uses.  [fullmatch] decides
    membership of the whole string by derivatives; a backtracking matcher
    finds a match exactly when one exists. *)

Module Re.

Inductive regex : Type :=
| Void : regex
| Eps : regex
| Class (ranges : list (ascii * ascii)) : regex
| Cat (r1 r2 : regex) : regex
| Alt (r1 r2 : regex) : regex
| Star (r : regex) : regex.

(** [r+] *)
Definition Plus (r : regex) : regex := Cat r (Star r).

Definition in_range (c : ascii) (rg : ascii * ascii) : bool :=
  Ascii.leb (fst rg) c && Ascii.leb c (snd rg).

Definition in_class (ranges : list (ascii * ascii)) (c : ascii) : bool :=
  existsb (in_range c) ranges.

Fixpoint nullable (r : regex) : bool :=
  match r with
  | Void => false
  | Eps => true
  | Class _ => false
  | Cat r1 r2 => nullable r1 && nullable r2
  | Alt r1 r2 => nullable r1 || nullable r2
  | Star _ => true
  end.

Fixpoint deriv (c : ascii) (r : regex) : regex :=
  match r with
  | Void => Void
  | Eps => Void
  | Class rs => if in_class rs c then Eps else Void
  | Cat r1 r2 =>
      if nullable r1
      then Alt (Cat (deriv c r1) r2) (deriv c r2)
      else Cat (deriv c r1) r2
  | Alt r1 r2 => Alt (deriv c r1) (deriv c r2)
  | Star r1 => Cat (deriv c r1) (Star r1)
  end.

(** [re.fullmatch(r, s)] as a truth value *)
Fixpoint fullmatch (r : regex) (s : string) : bool :=
  match s with
  | EmptyString => nullable r
  | String c s' => fullmatch (deriv c r) s'
  end.

(** The language of a regular expression. *)
Inductive matches : regex → string → Prop :=
| m_eps : matches Eps ""
| m_class rs c : in_class rs c = true → matches (Class rs) (String c "")
| m_cat r1 r2 s1 s2 :
    matches r1 s1 → matches r2 s2 → matches (Cat r1 r2) (s1 +:+ s2)
| m_alt_l r1 r2 s : matches r1 s → matches (Alt r1 r2) s
| m_alt_r r1 r2 s : matches r2 s → matches (Alt r1 r2) s
| m_star_nil r : matches (Star r) ""
| m_star_cons r s1 s2 :
    matches r s1 → matches (Star r) s2 → matches (Star r) (s1 +:+ s2).

End Re.

(** ** The name validator *)

(** The pattern [r"[a-zA-Z0-9_]+"]. *)
Definition task_name_pattern : Re.regex :=
  Re.Plus (Re.Class [("a", "z"); ("A", "Z"); ("0", "9"); ("_", "_")]%char).

(** [is_safe_task_name], on a [str] as its annotation says. *)
Definition is_safe_task_name (task_name : string) : bool :=
  if String.eqb task_name "" then false
  else if Re.fullmatch task_name_pattern task_name
          && negb (Py.contains ".." task_name)
       then true
       else false.

(** ** Text decoding of [open(path, "r", encoding="utf-8")] *)

Module Utf8.

Definition between (lo hi : N) (c : ascii) : bool :=
  ((lo <=? N_of_ascii c) && (N_of_ascii c <=? hi))%N.

(** A continuation byte, [80..BF]. *)
Definition cont : ascii → bool := between 128 191.

(** The second byte of a three-byte sequence: no overlong form after
    [E0], no surrogate after [ED]. *)
Definition second3 (b0 b1 : ascii) : bool :=
  if between 224 224 b0 then between 160 191 b1
  else if between 237 237 b0 then between 128 159 b1
  else cont b1.

(** The second byte of a four-byte sequence: no overlong form after
    [F0], nothing above U+10FFFF after [F4]. *)
Definition second4 (b0 b1 : ascii) : bool :=
  if between 240 240 b0 then between 144 191 b1
  else if between 244 244 b0 then between 128 143 b1
  else cont b1.

(** Well-formed UTF-8, as the strict decoder accepts it. *)
Fixpoint valid (s : string) : bool :=
  match s with
  | EmptyString => true
  | String b0 s1 =>
      if between 0 127 b0 then valid s1
      else
        match s1 with
        | EmptyString => false
        | String b1 s2 =>
            if between 194 223 b0 then cont b1 && valid s2
            else
              match s2 with
              | EmptyString => false
              | String b2 s3 =>
                  if between 224 239 b0
                  then second3 b0 b1 && cont b2 && valid s3
                  else
                    match s3 with
                    | EmptyString => false
                    | String b3 s4 =>
                        between 240 244 b0 && second4 b0 b1
                        && cont b2 && cont b3 && valid s4
                    end
              end
        end
  end.

(** [bytes.decode("utf-8")] with the default [errors="strict"]: the
    text (given by the same bytes) or no text at all. *)
Definition decode (data : string) : option string :=
  if valid data then Some data else None.

(** Text mode with the default [newline=None]: on input [\r\n] and a
    lone [\r] are translated into [\n]. *)
Fixpoint universal_newlines (s : string) : string :=
  match s with
  | EmptyString => EmptyString
  | String c s' =>
      if Ascii.eqb c Py.CR then
        match s' with
        | EmptyString => Py.LF
        | String d s'' =>
            if Ascii.eqb d (ascii_of_nat 10)
            then Py.LF +:+ universal_newlines s''
            else Py.LF +:+ universal_newlines s'
        end
      else String c (universal_newlines s')
  end.

End Utf8.

(** ** Values, exceptions and results *)

(** JSON values as Python objects; JSON numbers are taken to be integers. *)
Inductive pyval : Type :=
| PyNone : pyval
| PyBool (b : bool) : pyval
| PyInt (z : Z) : pyval
| PyStr (s : string) : pyval
| PyList (l : list pyval) : pyval
| PyDict (d : list (string * pyval)) : pyval.

(** [bool(v)] *)
Definition truthy (v : pyval) : bool :=
  match v with
  | PyNone => false
  | PyBool b => b
  | PyInt z => negb (z =? 0)%Z
  | PyStr s => negb (String.eqb s "")
  | PyList l => match l with [] => false | _ :: _ => true end
  | PyDict d => match d with [] => false | _ :: _ => true end
  end.

(** The exceptions the server meets.  [IOError] is Python 3's alias of
    [OSError]; [FileNotFoundError] is a subclass of it and
    [UnicodeDecodeError] a subclass of [ValueError].  The first three carry
    the message they were raised with; the text of the two the interpreter
    raises is the interpreter's. *)
Inductive exn : Type :=
| ValueError (msg : string) : exn
| FileNotFoundError (msg : string) : exn
| IOError (msg : string) : exn
| UnicodeDecodeError (data : string) : exn
| TypeError (v : pyval) : exn.

Definition is_ValueError (e : exn) : bool :=
  match e with ValueError _ | UnicodeDecodeError _ => true | _ => false end.

Definition is_IOError (e : exn) : bool :=
  match e with IOError _ | FileNotFoundError _ => true | _ => false end.

Definition is_FileNotFoundError (e : exn) : bool :=
  match e with FileNotFoundError _ => true | _ => false end.

Inductive result (A : Type) : Type :=
| Raise (e : exn) : result A
| Return (v : A) : result A.
Arguments Raise {A} e.
Arguments Return {A} v.

Definition bind {A B} (m : result A) (k : A → result B) : result B :=
  match m with
  | Raise e => Raise e
  | Return v => k v
  end.

Notation "x ←? m ;; k" := (bind m (fun x => k))
  (at level 100, m at next level, right associativity).

(** [try: body except <classes> as e: handler(e)] *)
Definition try_except {A} (body : result A) (classes : exn → bool)
    (handler : exn → result A) : result A :=
  match body with
  | Raise e => if classes e then handler e else Raise e
  | Return v => Return v
  end.

(** A value that has to be a [str].  [read_prompt_content] hands its
    argument to [is_safe_task_name], where a true value that is not a [str]
    makes [re.fullmatch] raise [TypeError]. *)
Definition as_str (v : pyval) : result string :=
  match v with
  | PyStr s => Return s
  | _ => Raise (TypeError v)
  end.

(** ** The prompts directory *)

(** What a name of the directory refers to.  The bytes of a regular file,
    or the message of the [OSError] that opening or reading it raises. *)
Inductive node : Type :=
| Directory : node
| RegularFile (data : string) : node
| Unreadable (os_message : string) : node
| Special : node.

(** The state of the path [PROMPTS_DIR]; the entries of a directory come in
    the order in which the file system iterates over them. *)
Inductive prompts_dir : Type :=
| Absent : prompts_dir
| NotADirectory : prompts_dir
| Listing (entries : list (string * node)) : prompts_dir.

Definition dir_exists (d : prompts_dir) : bool :=
  match d with Absent => false | _ => true end.

Definition dir_is_dir (d : prompts_dir) : bool :=
  match d with Listing _ => true | _ => false end.

Definition entry_names (d : prompts_dir) : list string :=
  match d with Listing entries => fst <$> entries | _ => [] end.

(** [PROMPTS_DIR.glob("*.txt")]: the names of the children that end in
    [.txt], of whatever kind, in iteration order. *)
Definition glob_txt (d : prompts_dir) : list string :=
  filter (λ n, Is_true (Py.endswith ".txt" n)) (entry_names d).

(** [Path.stem]: the name without its last suffix. *)
Definition stem (name : string) : string :=
  match Py.rfind "." name with
  | Some i =>
      if (0 <? i)%nat && (i <? Py.len name - 1)%nat
      then Py.slice_to i name
      else name
  | None => name
  end.

Fixpoint assoc (name : string) (entries : list (string * node)) : option node :=
  match entries with
  | [] => None
  | (n, x) :: rest => if String.eqb n name then Some x else assoc name rest
  end.

(** The child [PROMPTS_DIR / name], for a [name] without separator. *)
Definition child (d : prompts_dir) (name : string) : option node :=
  match d with Listing entries => assoc name entries | _ => None end.

(** [Path.stat()] of the child.  For a name the directory holds it
    returns what the name refers to.  For any other name the system either
    reports it missing, or refuses the path with another error, as it does
    for a name longer than [NAME_MAX] or a path longer than [PATH_MAX];
    [stat_fault] gives the message of that [OSError], by the child's name. *)
Definition stat (stat_fault : string → option string) (d : prompts_dir)
    (name : string) : result (option node) :=
  match child d name with
  | Some x => Return (Some x)
  | None =>
      match stat_fault name with
      | Some os_message => Raise (IOError os_message)
      | None => Return None
      end
  end.

(** [Path.exists()]: false when the path is reported missing; any other
    [OSError] of [stat] is raised again. *)
Definition path_exists (stat_fault : string → option string) (d : prompts_dir)
    (name : string) : result bool :=
  st ←? stat stat_fault d name ;;
  Return (match st with Some _ => true | None => false end).

(** [Path.is_file()], with the same handling of the errors of [stat]. *)
Definition path_is_file (stat_fault : string → option string) (d : prompts_dir)
    (name : string) : result bool :=
  st ←? stat stat_fault d name ;;
  Return (match st with
          | Some (RegularFile _) | Some (Unreadable _) => true
          | _ => false
          end).

(** [with open(path, "r", encoding="utf-8") as f: return f.read()] *)
Definition open_read (d : prompts_dir) (name : string) : result string :=
  match child d name with
  | Some (RegularFile data) =>
      match Utf8.decode data with
      | Some text => Return (Utf8.universal_newlines text)
      | None => Raise (UnicodeDecodeError data)
      end
  | Some (Unreadable os_message) => Raise (IOError os_message)
  | Some Directory => Raise (IOError "Is a directory")
  | Some Special => Raise (IOError "Operation not supported")
  | None => Raise (FileNotFoundError "No such file or directory")
  end.

(** ** The catalog and the loader *)

(** The loop of [get_available_prompts] over the paths the glob yields,
    with the list [prompt_files] it appends to. *)
Fixpoint scan (paths : list string) (prompt_files : list string) : list string :=
  match paths with
  | [] => prompt_files
  | file_path :: rest =>
      let task_name := stem file_path in
      if is_safe_task_name task_name
      then scan rest (prompt_files ++ [task_name])
      else scan rest prompt_files
  end.

Definition get_available_prompts (PROMPTS_DIR : prompts_dir) : list string :=
  if negb (dir_exists PROMPTS_DIR) || negb (dir_is_dir PROMPTS_DIR) then []
  else Py.sorted (scan (glob_txt PROMPTS_DIR) []).

Definition read_prompt_content (stat_fault : string → option string)
    (PROMPTS_DIR : prompts_dir) (task_name : string) : result string :=
  if negb (is_safe_task_name task_name)
  then Raise (ValueError ("Invalid task name: " +:+ task_name))
  else
    let prompt_file_path := task_name +:+ ".txt" in
    missing ←?
      (found ←? path_exists stat_fault PROMPTS_DIR prompt_file_path ;;
       if negb found then Return true
       else
         regular ←? path_is_file stat_fault PROMPTS_DIR prompt_file_path ;;
         Return (negb regular)) ;;
    if (missing : bool)
    then Raise (FileNotFoundError ("Prompt not found for task: " +:+ task_name))
    else
      try_except (open_read PROMPTS_DIR prompt_file_path) is_IOError
        (λ _, Raise (IOError ("Error reading prompt file for task: " +:+ task_name))).

(** ** The tool listing *)

Record Tool : Type := mkTool {
  name : string;
  description : string;
  inputSchema : pyval
}.

Definition no_parameters : pyval :=
  PyDict [("type", PyStr "object"); ("properties", PyDict []);
          ("required", PyList [])].

Definition list_prompts_tool : Tool :=
  mkTool "list_available_prompts"
    "Lists all available prompt templates that can be fetched. Use this to discover what prompts are available."
    no_parameters.

Definition prompt_tool (prompt_name : string) : Tool :=
  mkTool ("get_prompt_" +:+ prompt_name)
    ("Fetches the '" +:+ prompt_name
       +:+ "' prompt template. This provides a structured template for "
       +:+ Py.replace "_" " " prompt_name +:+ " tasks.")
    no_parameters.

Definition by_name_tool : Tool :=
  mkTool "get_prompt_by_name"
    "Fetches a specific prompt template by its task name. Use this when you know the exact name of the prompt you want."
    (PyDict
       [("type", PyStr "object");
        ("properties",
          PyDict
            [("task_name",
               PyDict
                 [("type", PyStr "string");
                  ("description",
                    PyStr "The name of the task/prompt to fetch (e.g., 'create_prd', 'review_tasks')")])]);
        ("required", PyList [PyStr "task_name"])]).

(** The loop of [list_tools] that appends one tool per prompt. *)
Fixpoint add_prompt_tools (available_prompts : list string) (tools : list Tool)
    : list Tool :=
  match available_prompts with
  | [] => tools
  | prompt_name :: rest => add_prompt_tools rest (tools ++ [prompt_tool prompt_name])
  end.

Definition list_tools (PROMPTS_DIR : prompts_dir) : list Tool :=
  let available_prompts := get_available_prompts PROMPTS_DIR in
  let tools := [] in
  let tools := tools ++ [list_prompts_tool] in
  let tools := add_prompt_tools available_prompts tools in
  let tools := tools ++ [by_name_tool] in
  tools.

(** ** The dispatcher *)

Record TextContent : Type := mkText {
  type : string;
  text : string
}.

Definition text_content (t : string) : TextContent := mkText "text" t.

Section Dispatcher.

(** The text [str(e)] of an exception the interpreter raises; it
    changes with the interpreter's version. *)
Variable interpreter_message : exn → string.

(** The errors of [stat] on the children of the prompts directory. *)
Variable stat_fault : string → option string.

(** [str(e)] *)
Definition str_exn (e : exn) : string :=
  match e with
  | ValueError msg | FileNotFoundError msg | IOError msg => msg
  | UnicodeDecodeError _ | TypeError _ => interpreter_message e
  end.

(** The classes of [except (ValueError, FileNotFoundError, IOError)]. *)
Definition loader_errors (e : exn) : bool :=
  is_ValueError e || is_FileNotFoundError e || is_IOError e.

(** [arguments.get(key)] *)
Definition dict_get (arguments : gmap string pyval) (key : string) : pyval :=
  default PyNone (arguments !! key).

(** The body of the outer [try] of [call_tool]. *)
Definition call_tool_body (PROMPTS_DIR : prompts_dir) (name : string)
    (arguments : gmap string pyval) : result (list TextContent) :=
  if String.eqb name "list_available_prompts" then
    let available_prompts := get_available_prompts PROMPTS_DIR in
    let prompt_list :=
      Py.join Py.LF ((λ prompt, "- " +:+ prompt) <$> available_prompts) in
    Return [text_content
              ("Available prompts:" +:+ Py.LF +:+ prompt_list +:+ Py.LF +:+ Py.LF
                 +:+ "Use 'get_prompt_by_name' with the task_name parameter, or use the specific 'get_prompt_[name]' tools to fetch individual prompts.")]
  else if String.eqb name "get_prompt_by_name" then
    let task_name := dict_get arguments "task_name" in
    if negb (truthy task_name)
    then Return [text_content "Error: task_name parameter is required"]
    else
      try_except
        (task_name ←? as_str task_name ;;
         prompt_content ←? read_prompt_content stat_fault PROMPTS_DIR task_name ;;
         Return [text_content
                   ("Prompt for '" +:+ task_name +:+ "':" +:+ Py.LF +:+ Py.LF
                      +:+ prompt_content)])
        loader_errors
        (λ e, Return [text_content ("Error: " +:+ str_exn e)])
  else if Py.startswith "get_prompt_" name then
    let task_name := Py.slice_from (Py.len "get_prompt_") name in
    try_except
      (prompt_content ←? read_prompt_content stat_fault PROMPTS_DIR task_name ;;
       Return [text_content
                 ("Prompt for '" +:+ task_name +:+ "':" +:+ Py.LF +:+ Py.LF
                    +:+ prompt_content)])
      loader_errors
      (λ e, Return [text_content ("Error: " +:+ str_exn e)])
  else
    Return [text_content ("Error: Unknown tool '" +:+ name +:+ "'")].

Definition call_tool (PROMPTS_DIR : prompts_dir) (name : string)
    (arguments : gmap string pyval) : list TextContent :=
  match call_tool_body PROMPTS_DIR name arguments with
  | Return response => response
  | Raise e => [text_content ("Unexpected error: " +:+ str_exn e)]
  end.

End Dispatcher.

(** ** The configuration generator ([generate_config.py]) *)

(** [check_prompts], on the state of [mcp_server/prompts], the directory
    the server reads.  A glob on a path that is not a directory yields
    nothing. *)
Definition check_prompts (prompts : prompts_dir) : list string :=
  if negb (dir_exists prompts) then []
  else
    let prompt_files := glob_txt prompts in
    stem <$> prompt_files.

(** What [install_dependencies] does to the outside: the lines it prints
    and the commands it runs, in order. *)
Record console : Type := mkConsole {
  stdout : list string;
  commands : list (list string)
}.

Definition print (line : string) (c : console) : console :=
  mkConsole (stdout c ++ [line]) (commands c).

Definition spawn (command : list string) (c : console) : console :=
  mkConsole (stdout c) (commands c ++ [command]).

(** The ways [subprocess.run(..., capture_output=True, text=True,
    check=True)] ends: it returns, it raises [CalledProcessError] for a
    non-zero exit status (with the captured standard error and the text of
    the exception), or it raises something else. *)
Inductive run_outcome : Type :=
| Completed : run_outcome
| CalledProcessError (stderr message : string) : run_outcome
| OtherException (message : string) : run_outcome.

Record install_method : Type := mkMethod {
  method_args : list string;
  method_description : string
}.

Section Installer.

(** [sys.executable], [str(requirements_file)] and the outcome of running
    a command. *)
Variable executable : string.
Variable requirements_file : string.
Variable run : list string → run_outcome.

Definition install_methods : list install_method :=
  [ mkMethod [executable; "-m"; "pip"; "install"; "--user"; "-r"; requirements_file]
      "user installation";
    mkMethod [executable; "-m"; "pip"; "install"; "--break-system-packages"; "-r";
              requirements_file]
      "system-wide installation" ].

(** The loop over the installation methods; [true] when a method returned
    and the loop was left by [return True]. *)
Fixpoint try_methods (methods : list install_method) (c : console)
    : bool * console :=
  match methods with
  | [] => (false, c)
  | method :: rest =>
      let c := print ("   Trying " +:+ method_description method +:+ "...") c in
      let c := spawn (method_args method) c in
      match run (method_args method) with
      | Completed => (true, print "✅ Dependencies installed successfully!" c)
      | CalledProcessError stderr message =>
          if Py.contains "externally-managed-environment" stderr
          then
            try_methods rest
              (print ("   ⚠️  " +:+ method_description method
                        +:+ " blocked by system policy") c)
          else
            try_methods rest
              (print ("   ❌ " +:+ method_description method +:+ " failed: "
                        +:+ message) c)
      | OtherException message =>
          try_methods rest
            (print ("   ❌ Unexpected error with " +:+ method_description method
                      +:+ ": " +:+ message) c)
      end
  end.

Definition manual_instructions : list string :=
  [ Py.LF +:+ "❌ Automatic installation failed. Please install manually:";
    Py.LF +:+ "🔧 Option 1 - User installation (recommended):";
    "   cd mcp_server";
    "   python3 -m pip install --user -r requirements.txt";
    Py.LF +:+ "🔧 Option 2 - Virtual environment (safest):";
    "   python3 -m venv venv";
    "   source venv/bin/activate";
    "   pip install -r mcp_server/requirements.txt";
    "   # Then run: python3 generate_config.py";
    Py.LF +:+ "🔧 Option 3 - System override (use with caution):";
    "   cd mcp_server";
    "   python3 -m pip install --break-system-packages -r requirements.txt" ].

Definition install_dependencies (requirements_exists : bool) (c : console)
    : bool * console :=
  if negb requirements_exists
  then (false, print "⚠️  Warning: requirements.txt not found" c)
  else
    let c := print "🔧 Installing Python dependencies..." c in
    match try_methods install_methods c with
    | (true, c) => (true, c)
    | (false, c) => (false, foldl (λ c line, print line c) c manual_instructions)
    end.

End Installer.

(** [s * n] *)
Fixpoint str_repeat (s : string) (n : nat) : string :=
  match n with
  | O => EmptyString
  | S n' => s +:+ str_repeat s n'
  end.

(** [str(n)] for a length. *)
Definition str_of_nat (n : nat) : string := NilZero.string_of_uint (Nat.to_uint n).

Section Generator.

(** [sys.executable], [str(requirements_file)], the outcome of running a
    command, [str(current_dir)], [str(server_script)] and
    [json.dumps(_, indent=2)]. *)
Variable executable : string.
Variable requirements_file : string.
Variable run : list string → run_outcome.
Variable project_path : string.
Variable server_script : string.
Variable json_dumps : pyval → string.

Definition config : pyval :=
  PyDict
    [("mcpServers",
       PyDict
         [("mcp-product-documentation",
            PyDict [("command", PyStr "python3");
                    ("args", PyList [PyStr server_script])])])].

Definition generate_mcp_config (server_script_exists : bool) (c : console)
    : option (pyval * string) * console :=
  if negb server_script_exists then
    let c := print ("❌ Error: Server script not found at " +:+ server_script) c in
    let c := print "Make sure you're running this from the project root directory." c in
    (None, c)
  else (Some (config, project_path), c).

(** The loop of [main] that prints the prompts. *)
Fixpoint print_prompts (prompts : list string) (c : console) : console :=
  match prompts with
  | [] => c
  | prompt :: rest => print_prompts rest (print ("   • " +:+ prompt) c)
  end.

(** [main] of the generator.  [mcp_importable] is what [check_dependencies]
    returns: whether [import mcp] succeeds. *)
Definition generator_main (mcp_importable requirements_exists server_script_exists : bool)
    (prompts_state : prompts_dir) (c : console) : console :=
  let c := print "🚀 MCP Product Documentation Server" c in
  let c := print (str_repeat "=" 50) c in
  let '(ready, c) :=
    if negb mcp_importable then
      let c := print "📦 MCP dependencies not found. Installing..." c in
      match install_dependencies executable requirements_file run
              requirements_exists c with
      | (false, c) =>
          (false,
           print (Py.LF +:+ "❌ Setup failed. Please install dependencies manually and try again.") c)
      | (true, c) => (true, print "" c)
      end
    else (true, c) in
  if negb ready then c
  else
    match generate_mcp_config server_script_exists c with
    | (None, c) => c
    | (Some (config, project_path), c) =>
        let prompts := check_prompts prompts_state in
        let c := print ("📁 Project location: " +:+ project_path) c in
        let c := print ("📝 Available prompts: " +:+ str_of_nat (length prompts)) c in
        let c :=
          match prompts with
          | [] => c
          | _ :: _ => print_prompts (Py.sorted prompts) c
          end in
        let c := print (Py.LF +:+ str_repeat "=" 50) c in
        let c := print "📋 MCP Configuration" c in
        let c := print (str_repeat "=" 50) c in
        let c := print (Py.LF +:+ "Copy this configuration to your MCP client:") c in
        let c := print (Py.LF +:+ "🔸 For Cursor IDE (~/.cursor/mcp.json):") c in
        let c := print (json_dumps config) c in
        let c := print (Py.LF +:+ str_repeat "=" 50) c in
        let c := print "✅ Setup Complete!" c in
        let c := print (str_repeat "=" 50) c in
        let c := print (Py.LF +:+ "1. Copy the configuration above") c in
        let c := print "2. Add it to your MCP client configuration file" c in
        let c := print "3. Restart your MCP client" c in
        let c := print "4. You can now use the prompt tools!" c in
        let c := print (Py.LF +:+ "💡 Server will run from: " +:+ project_path) c in
        c
    end.

End Generator.

(** ** Vocabulary of the statements *)

(** A character of the class [[A-Za-z0-9_]], by its code. *)
Definition word_char (c : ascii) : Prop :=
  let n := N_of_ascii c in
  (97 ≤ n ≤ 122 ∨ 65 ≤ n ≤ 90 ∨ 48 ≤ n ≤ 57 ∨ n = 95)%N.

(** [sub] occurs in [s] as a substring. *)
Definition occurs (sub s : string) : Prop :=
  ∃ p q, s = p +:+ sub +:+ q.

(** * Properties *)

(** ** Strings *)

Lemma sapp_nil_l s : "" +:+ s = s.
Proof. reflexivity. Qed.

Lemma sapp_cons c s t : String c s +:+ t = String c (s +:+ t).
Proof. reflexivity. Qed.



Lemma sapp_eq_nil s t : s +:+ t = "" → s = "" ∧ t = "".
Proof. destruct s; [done|]. by rewrite sapp_cons. Qed.

Lemma len_app s t : Py.len (s +:+ t) = Py.len s + Py.len t.
Proof.
  induction s as [|c s IH]; [done|].
  rewrite sapp_cons. unfold Py.len in *. simpl. by rewrite IH.
Qed.

Lemma chars_cons c s : Py.chars (String c s) = c :: Py.chars s.
Proof. reflexivity. Qed.

Lemma startswith_spec p s : Py.startswith p s = true ↔ ∃ q, s = p +:+ q.
Proof.
  revert s. induction p as [|a p IH]; intros s; simpl.
  - split; [eauto|done].
  - destruct s as [|b s].
    + split; [done|]. intros [q Hq]. by rewrite sapp_cons in Hq.
    + rewrite andb_true_iff, Ascii.eqb_eq, IH. split.
      * intros [-> [q ->]]. by exists q.
      * intros [q Hq]. rewrite sapp_cons in Hq. injection Hq as -> ->. eauto.
Qed.

Lemma contains_spec sub s : Py.contains sub s = true ↔ occurs sub s.
Proof.
  unfold occurs. induction s as [|a s IH]; simpl;
    rewrite orb_true_iff, startswith_spec.
  - split.
    + intros [[q Hq]|?]; [|done]. by exists "", q.
    + intros (p & q & Hpq). left. symmetry in Hpq.
      apply sapp_eq_nil in Hpq as [-> Hq]. by exists q.
  - rewrite IH. split.
    + intros [[q Hq]|(p & q & Hpq)].
      * by exists "", q.
      * exists (String a p), q. by rewrite sapp_cons, Hpq.
    + intros ([|b p] & q & Hpq).
      * left. by exists q.
      * right. rewrite sapp_cons in Hpq. injection Hpq as -> ->. eauto.
Qed.

Lemma ascii_leb_le a b :
  Ascii.leb a b = true ↔ (N_of_ascii a ≤ N_of_ascii b)%N.
Proof.
  unfold Ascii.leb, Ascii.compare, N.le.
  destruct (N_of_ascii a ?= N_of_ascii b)%N; split; congruence.
Qed.

(** ** Regular expressions *)

Section ReFacts.
Import Re.

Lemma nullable_spec r : nullable r = true ↔ matches r "".
Proof.
  split.
  - induction r as [| |rs|r1 IH1 r2 IH2|r1 IH1 r2 IH2|r IH]; simpl; intros H;
      try discriminate.
    + constructor.
    + apply andb_true_iff in H as [H1 H2].
      apply (m_cat r1 r2 "" ""); auto.
    + apply orb_true_iff in H as [H|H];
        [apply m_alt_l|apply m_alt_r]; auto.
    + constructor.
  - intros H. remember "" as s eqn:E.
    induction H as [|rs c Hc|r1 r2 s1 s2 H1 IH1 H2 IH2|r1 r2 s H IH
                   |r1 r2 s H IH| |r s1 s2 H1 IH1 H2 IH2]; simpl; try done.
    + apply sapp_eq_nil in E as [-> ->]. by rewrite IH1, IH2.
    + by rewrite IH.
    + rewrite IH by done. apply orb_true_r.
Qed.

Lemma deriv_sound c r s : matches (deriv c r) s → matches r (String c s).
Proof.
  revert s.
  induction r as [| |rs|r1 IH1 r2 IH2|r1 IH1 r2 IH2|r IH]; simpl; intros s H.
  - inversion H.
  - inversion H.
  - destruct (in_class rs c) eqn:Hc; inversion H; subst. by constructor.
  - destruct (nullable r1) eqn:Hn.
    + inversion H as [| | | ? ? ? H' | ? ? ? H' | |]; subst.
      * inversion H' as [| |? ? s1 s2 Ha Hb| | | |]; subst.
        apply (m_cat r1 r2 (String c s1) s2); auto.
      * apply (m_cat r1 r2 "" (String c s)); auto.
        by apply nullable_spec.
    + inversion H as [| |? ? s1 s2 Ha Hb| | | |]; subst.
      apply (m_cat r1 r2 (String c s1) s2); auto.
  - inversion H; subst; [apply m_alt_l|apply m_alt_r]; auto.
  - inversion H as [| |? ? s1 s2 Ha Hb| | | |]; subst.
    apply (m_star_cons r (String c s1) s2); auto.
Qed.

Lemma deriv_complete c r s : matches r (String c s) → matches (deriv c r) s.
Proof.
  intros H. remember (String c s) as t eqn:E. revert s E.
  induction H as [|rs c' Hc|r1 r2 s1 s2 H1 IH1 H2 IH2|r1 r2 t H IH
                 |r1 r2 t H IH| |r s1 s2 H1 IH1 H2 IH2]; intros s E; simpl.
  - done.
  - injection E as -> <-. rewrite Hc. constructor.
  - destruct s1 as [|a s1].
    + apply nullable_spec in H1 as ->. apply m_alt_r. by apply IH2.
    + rewrite sapp_cons in E. injection E as -> <-.
      destruct (nullable r1); [apply m_alt_l|]; constructor; auto.
  - apply m_alt_l. auto.
  - apply m_alt_r. auto.
  - done.
  - destruct s1 as [|a s1].
    + by apply IH2.
    + rewrite sapp_cons in E. injection E as -> <-.
      constructor; auto.
Qed.

Lemma fullmatch_spec r s : fullmatch r s = true ↔ matches r s.
Proof.
  revert r. induction s as [|c s IH]; intros r; simpl.
  - apply nullable_spec.
  - rewrite IH. split; [apply deriv_sound|apply deriv_complete].
Qed.

Lemma star_class_spec rs s :
  matches (Star (Class rs)) s ↔ Forall (λ c, in_class rs c = true) (Py.chars s).
Proof.
  split.
  - intros H. remember (Star (Class rs)) as r eqn:E.
    induction H as [| | | | | |r s1 s2 H1 IH1 H2 IH2]; try discriminate.
    + constructor.
    + injection E as ->. inversion H1; subst.
      rewrite sapp_cons, sapp_nil_l, chars_cons. constructor; auto.
  - induction s as [|c s IH]; intros H.
    + constructor.
    + rewrite chars_cons in H. apply Forall_cons in H as [Hc H].
      apply (m_star_cons (Class rs) (String c "") s); [by constructor|auto].
Qed.

Lemma plus_class_spec rs s :
  fullmatch (Plus (Class rs)) s = true ↔
  s ≠ "" ∧ Forall (λ c, in_class rs c = true) (Py.chars s).
Proof.
  rewrite fullmatch_spec. unfold Plus. split.
  - intros H. inversion H as [| |? ? s1 s2 Ha Hb| | | |]; subst.
    inversion Ha; subst. rewrite sapp_cons, sapp_nil_l, chars_cons.
    split; [done|]. constructor; [done|]. by apply star_class_spec.
  - intros [Hne H]. destruct s as [|c s]; [done|].
    rewrite chars_cons in H. apply Forall_cons in H as [Hc H].
    apply (m_cat (Class rs) _ (String c "") s); [by constructor|].
    by apply star_class_spec.
Qed.

End ReFacts.

(** ** The name validator *)

Lemma task_name_class c :
  Re.in_class [("a", "z"); ("A", "Z"); ("0", "9"); ("_", "_")]%char c = true
  ↔ word_char c.
Proof.
  unfold Re.in_class, Re.in_range, word_char. simpl.
  rewrite !orb_true_iff, !andb_true_iff, !ascii_leb_le.
  change (N_of_ascii "a") with 97%N. change (N_of_ascii "z") with 122%N.
  change (N_of_ascii "A") with 65%N. change (N_of_ascii "Z") with 90%N.
  change (N_of_ascii "0") with 48%N. change (N_of_ascii "9") with 57%N.
  change (N_of_ascii "_") with 95%N.
  lia.
Qed.

Lemma is_safe_task_name_iff s :
  is_safe_task_name s = true ↔
  s ≠ "" ∧ Forall word_char (Py.chars s) ∧ ¬ occurs ".." s.
Proof.
  unfold is_safe_task_name, task_name_pattern.
  destruct (String.eqb_spec s "") as [->|Hne].
  { split; [done|]. by intros [? _]. }
  destruct (Re.fullmatch _ s) eqn:Hm; simpl.
  - apply plus_class_spec in Hm as [_ Hall].
    destruct (Py.contains ".." s) eqn:Hc; simpl.
    + apply contains_spec in Hc. split; [done|]. by intros (_ & _ & []).
    + split; [|done]. intros _. split_and!; [done| |].
      * eapply Forall_impl; [exact Hall|]. intros c. apply task_name_class.
      * rewrite <-contains_spec. congruence.
  - split; [done|]. intros (_ & Hall & _).
    assert (Re.fullmatch
              (Re.Plus (Re.Class [("a", "z"); ("A", "Z"); ("0", "9"); ("_", "_")]%char))
              s = true) as Hm'; [|congruence].
    apply plus_class_spec. split; [done|].
    eapply Forall_impl; [exact Hall|]. intros c. apply task_name_class.
Qed.

(** C1.  The name validator accepts a string exactly when it is not empty,
    each of its characters is a letter [A-Z] or [a-z], a digit or an
    underscore (the whole string, from its first to its last character),
    and [..] does not occur in it.  So it rejects the empty string, [a/b]
    and [a..b], and accepts [task_1]. *)
Theorem is_safe_task_name_spec :
  (∀ s : string,
     is_safe_task_name s = true ↔
     s ≠ "" ∧ Forall word_char (Py.chars s) ∧ ¬ occurs ".." s)
  ∧ is_safe_task_name "" = false
  ∧ is_safe_task_name "a/b" = false
  ∧ is_safe_task_name "a..b" = false
  ∧ is_safe_task_name "task_1" = true.
Proof. split; [apply is_safe_task_name_iff|done]. Qed.

(** ** The catalog *)

Lemma slice_from_app p q : Py.slice_from (Py.len p) (p +:+ q) = q.
Proof. induction p as [|c p IH]; [done|]. by rewrite sapp_cons. Qed.

Lemma slice_to_app p q : Py.slice_to (Py.len p) (p +:+ q) = p.
Proof.
  induction p as [|c p IH]; [done|].
  rewrite sapp_cons. simpl. by rewrite IH.
Qed.

Lemma slice_to_from n s : Py.slice_to n s +:+ Py.slice_from n s = s.
Proof.
  revert s. induction n as [|n IH]; intros [|c s]; simpl; try done.
  by rewrite sapp_cons, IH.
Qed.

Lemma endswith_txt n : Py.endswith ".txt" n = true ↔ ∃ p, n = p +:+ ".txt".
Proof.
  unfold Py.endswith. rewrite andb_true_iff, Nat.leb_le, String.eqb_eq. split.
  - intros [_ H]. exists (Py.slice_to (Py.len n - Py.len ".txt") n).
    rewrite <-(slice_to_from (Py.len n - Py.len ".txt") n) at 1. by rewrite H.
  - intros [p ->]. rewrite len_app. split; [lia|].
    replace (Py.len p + Py.len ".txt" - Py.len ".txt") with (Py.len p) by lia.
    apply slice_from_app.
Qed.

Lemma rfind_app c p q :
  Py.rfind c (p +:+ q) =
  match Py.rfind c q with
  | Some i => Some (Py.len p + i)
  | None => Py.rfind c p
  end.
Proof.
  induction p as [|a p IH].
  { rewrite sapp_nil_l. by destruct (Py.rfind c q). }
  rewrite sapp_cons. simpl. rewrite IH. by destruct (Py.rfind c q).
Qed.

Lemma stem_txt p :
  stem (p +:+ ".txt") = if String.eqb p "" then ".txt" else p.
Proof.
  unfold stem. rewrite rfind_app. simpl. rewrite len_app.
  destruct p as [|c p]; [done|].
  replace (Py.len (String c p) + 0) with (Py.len (String c p)) by lia.
  rewrite slice_to_app. simpl.
  destruct (Nat.ltb_spec (S (Py.len p)) (Py.len p + 4 - 0)); [done|lia].
Qed.

Lemma stem_of_safe t :
  is_safe_task_name t = true → stem (t +:+ ".txt") = t.
Proof.
  intros H. rewrite stem_txt.
  destruct (String.eqb_spec t "") as [->|]; done.
Qed.

Lemma safe_stem_inv n :
  Py.endswith ".txt" n = true → is_safe_task_name (stem n) = true →
  n = stem n +:+ ".txt".
Proof.
  intros [p ->]%endswith_txt. rewrite stem_txt.
  destruct (String.eqb_spec p "") as [->|]; done.
Qed.

Lemma scan_spec paths prompt_files :
  scan paths prompt_files =
  prompt_files ++ filter (λ t, Is_true (is_safe_task_name t)) (stem <$> paths).
Proof.
  revert prompt_files. induction paths as [|n paths IH]; intros acc; simpl.
  - by rewrite app_nil_r.
  - rewrite filter_cons.
    destruct (is_safe_task_name (stem n)) eqn:Hs; rewrite IH.
    + rewrite decide_True by done. rewrite <-app_assoc. reflexivity.
    + rewrite decide_False; [reflexivity|]. by intros [].
Qed.

Lemma get_available_prompts_listing entries :
  get_available_prompts (Listing entries) =
  Py.sorted (filter (λ t, Is_true (is_safe_task_name t))
               (stem <$> filter (λ n, Is_true (Py.endswith ".txt" n)) entries.*1)).
Proof. unfold get_available_prompts. simpl. by rewrite scan_spec. Qed.

Lemma elem_of_catalog entries t :
  t ∈ get_available_prompts (Listing entries) ↔
  is_safe_task_name t = true ∧ (t +:+ ".txt") ∈ entries.*1.
Proof.
  rewrite get_available_prompts_listing. unfold Py.sorted.
  rewrite merge_sort_Permutation, list_elem_of_filter, list_elem_of_fmap.
  rewrite Is_true_true. split.
  - intros [Hs (n & -> & [Hn Hin]%list_elem_of_filter)]. split; [done|].
    apply Is_true_true in Hn. by rewrite <-safe_stem_inv.
  - intros [Hs Hin]. split; [done|]. exists (t +:+ ".txt").
    split; [by rewrite stem_of_safe|].
    apply list_elem_of_filter. split; [|done].
    apply Is_true_true, endswith_txt. eauto.
Qed.

Lemma NoDup_safe_stems (paths : list string) :
  NoDup paths → Forall (λ n, Py.endswith ".txt" n = true) paths →
  NoDup (filter (λ t, Is_true (is_safe_task_name t)) (stem <$> paths)).
Proof.
  induction 1 as [|n paths Hn Hnd IH]; intros Htxt; [constructor|].
  apply Forall_cons in Htxt as [Hn_txt Htxt].
  rewrite fmap_cons, filter_cons. case_decide as Hs; [|auto].
  constructor; [|auto].
  intros [_ (n' & Heq & Hin')%list_elem_of_fmap]%list_elem_of_filter.
  apply Is_true_true in Hs. apply Hn.
  rewrite (safe_stem_inv n), Heq, <-(safe_stem_inv n'); try done.
  - eapply Forall_forall in Htxt; eauto.
  - by rewrite <-Heq.
Qed.

Lemma NoDup_catalog entries :
  NoDup entries.*1 → NoDup (get_available_prompts (Listing entries)).
Proof.
  intros Hnd. rewrite get_available_prompts_listing. unfold Py.sorted.
  rewrite merge_sort_Permutation. apply NoDup_safe_stems.
  - by apply NoDup_filter.
  - apply Forall_forall. intros n [Hn _]%list_elem_of_filter.
    by apply Is_true_true.
Qed.

Lemma sorted_catalog d : StronglySorted String.le (get_available_prompts d).
Proof.
  unfold get_available_prompts.
  destruct (negb (dir_exists d) || negb (dir_is_dir d)); [constructor|].
  apply StronglySorted_merge_sort; apply _.
Qed.

Lemma catalog_names_Permutation entries1 entries2 :
  entries1.*1 ≡ₚ entries2.*1 →
  get_available_prompts (Listing entries1) = get_available_prompts (Listing entries2).
Proof.
  intros Hp. apply (StronglySorted_unique String.le); try apply sorted_catalog.
  rewrite !get_available_prompts_listing. unfold Py.sorted.
  by rewrite !merge_sort_Permutation, Hp.
Qed.

Lemma safe_catalog d :
  Forall (λ t, is_safe_task_name t = true) (get_available_prompts d).
Proof.
  destruct d as [| |entries]; try constructor.
  apply Forall_forall. intros t Ht. by apply elem_of_catalog in Ht as [? _].
Qed.

(** X22.  Without a directory at its path the catalog is empty.  With
    one, the catalog is sorted in ascending order and holds exactly the
    names [t] that pass the validator and for which the directory has an
    entry [t.txt], of any kind (the glob does not look at the kind), each
    once; for the entries [create_prd.txt] and [review_tasks.txt] it is
    [create_prd], [review_tasks]; and it does not depend on the order in
    which the file system lists the entries. *)
Theorem get_available_prompts_spec :
  get_available_prompts Absent = []
  ∧ get_available_prompts NotADirectory = []
  ∧ (∀ entries,
       StronglySorted String.le (get_available_prompts (Listing entries))
       ∧ (∀ t, t ∈ get_available_prompts (Listing entries) ↔
               is_safe_task_name t = true ∧ (t +:+ ".txt") ∈ entries.*1)
       ∧ (NoDup entries.*1 → NoDup (get_available_prompts (Listing entries))))
  ∧ (∀ entries,
       entries.*1 ≡ₚ ["create_prd.txt"; "review_tasks.txt"] →
       get_available_prompts (Listing entries) = ["create_prd"; "review_tasks"])
  ∧ (∀ entries1 entries2,
       entries1 ≡ₚ entries2 →
       get_available_prompts (Listing entries1)
       = get_available_prompts (Listing entries2)).
Proof.
  split_and!; try done.
  - intros entries. split_and!.
    + apply sorted_catalog.
    + apply elem_of_catalog.
    + apply NoDup_catalog.
  - intros entries Hp.
    by rewrite (catalog_names_Permutation entries
                  [("create_prd.txt", Special); ("review_tasks.txt", Special)]).
  - intros entries1 entries2 Hp. apply catalog_names_Permutation.
    by rewrite Hp.
Qed.

Lemma get_available_prompts_spec_witness :
  get_available_prompts
    (Listing [("review_tasks.txt", RegularFile "b"); ("create_prd.txt", RegularFile "a")])
  = ["create_prd"; "review_tasks"]
  ∧ get_available_prompts
      (Listing [("review_tasks.txt", RegularFile "b"); ("create_prd.txt", RegularFile "a")])
    = get_available_prompts
        (Listing [("create_prd.txt", RegularFile "a"); ("review_tasks.txt", RegularFile "b")])
  ∧ NoDup (get_available_prompts
             (Listing [("review_tasks.txt", RegularFile "b");
                       ("create_prd.txt", RegularFile "a")])).
Proof.
  destruct get_available_prompts_spec as (_ & _ & Hcat & Hex & Hperm).
  split_and!.
  - apply Hex. apply Permutation_swap.
  - apply Hperm. apply Permutation_swap.
  - apply Hcat. apply (bool_decide_unpack _). by vm_compute.
Defined.

(** ** The loader *)

Example utf8_two_bytes :
  Utf8.valid (String (ascii_of_nat 195) (String (ascii_of_nat 169) "")) = true.
Proof. reflexivity. Qed.

Example utf8_latin1_byte : Utf8.valid (String (ascii_of_nat 233) "") = false.
Proof. reflexivity. Qed.

Example utf8_overlong :
  Utf8.valid (String (ascii_of_nat 192) (String (ascii_of_nat 128) "")) = false.
Proof. reflexivity. Qed.

Example utf8_truncated :
  Utf8.valid (String (ascii_of_nat 226) (String (ascii_of_nat 130) "")) = false.
Proof. reflexivity. Qed.

Example universal_newlines_mixed :
  Utf8.universal_newlines
    ("a" +:+ String Py.CR (String Py.CR Py.LF) +:+ "b" +:+ String Py.CR "")
  = "a" +:+ Py.LF +:+ Py.LF +:+ "b" +:+ Py.LF.
Proof. reflexivity. Qed.

Example stem_examples :
  stem "create_prd.txt" = "create_prd" ∧ stem "a.b.txt" = "a.b"
  ∧ stem ".txt" = ".txt" ∧ stem "notes" = "notes".
Proof. done. Qed.

Lemma stat_held stat_fault d nm x :
  child d nm = Some x → stat stat_fault d nm = Return (Some x).
Proof. intros H. unfold stat. by rewrite H. Qed.

Lemma path_is_file_false_inv stat_fault d nm :
  path_is_file stat_fault d nm = Return false →
  ∃ st, stat stat_fault d nm = Return st
        ∧ match st with
          | Some (RegularFile _) | Some (Unreadable _) => False
          | _ => True
          end.
Proof.
  unfold path_is_file. destruct (stat stat_fault d nm) as [e|st]; simpl; [done|].
  intros [= H]. exists st. split; [done|].
  by destruct st as [[| | |]|].
Qed.

Lemma read_invalid stat_fault d t :
  is_safe_task_name t = false →
  read_prompt_content stat_fault d t = Raise (ValueError ("Invalid task name: " +:+ t)).
Proof. intros H. unfold read_prompt_content. by rewrite H. Qed.

Lemma read_not_found stat_fault d t :
  is_safe_task_name t = true →
  path_is_file stat_fault d (t +:+ ".txt") = Return false →
  read_prompt_content stat_fault d t
  = Raise (FileNotFoundError ("Prompt not found for task: " +:+ t)).
Proof.
  intros Hs (st & Hst & Hkind)%path_is_file_false_inv.
  unfold read_prompt_content, path_exists, path_is_file.
  rewrite Hs, Hst. simpl.
  by destruct st as [[| | |]|].
Qed.

Lemma read_not_regular stat_fault d t x :
  is_safe_task_name t = true →
  child d (t +:+ ".txt") = Some x → x = Directory ∨ x = Special →
  read_prompt_content stat_fault d t
  = Raise (FileNotFoundError ("Prompt not found for task: " +:+ t)).
Proof.
  intros Hs Hc Hx. apply read_not_found; [done|].
  unfold path_is_file. rewrite (stat_held _ _ _ x Hc).
  by destruct Hx as [-> | ->].
Qed.

Lemma read_missing stat_fault d t :
  is_safe_task_name t = true →
  child d (t +:+ ".txt") = None → stat_fault (t +:+ ".txt") = None →
  read_prompt_content stat_fault d t
  = Raise (FileNotFoundError ("Prompt not found for task: " +:+ t)).
Proof.
  intros Hs Hc Hf. apply read_not_found; [done|].
  unfold path_is_file, stat. by rewrite Hc, Hf.
Qed.

Lemma read_stat_fault stat_fault d t os_message :
  is_safe_task_name t = true →
  child d (t +:+ ".txt") = None → stat_fault (t +:+ ".txt") = Some os_message →
  read_prompt_content stat_fault d t = Raise (IOError os_message).
Proof.
  intros Hs Hc Hf. unfold read_prompt_content, path_exists, stat.
  by rewrite Hs, Hc, Hf.
Qed.

Lemma read_unreadable stat_fault d t os_message :
  is_safe_task_name t = true →
  child d (t +:+ ".txt") = Some (Unreadable os_message) →
  read_prompt_content stat_fault d t
  = Raise (IOError ("Error reading prompt file for task: " +:+ t)).
Proof.
  intros Hs Hc.
  unfold read_prompt_content, path_exists, path_is_file, stat, open_read.
  by rewrite Hs, Hc.
Qed.

Lemma read_undecodable stat_fault d t data :
  is_safe_task_name t = true →
  child d (t +:+ ".txt") = Some (RegularFile data) →
  Utf8.decode data = None →
  read_prompt_content stat_fault d t = Raise (UnicodeDecodeError data).
Proof.
  intros Hs Hc Hd.
  unfold read_prompt_content, path_exists, path_is_file, stat, open_read.
  by rewrite Hs, Hc, Hd.
Qed.

Lemma read_text stat_fault d t data text :
  is_safe_task_name t = true →
  child d (t +:+ ".txt") = Some (RegularFile data) →
  Utf8.decode data = Some text →
  read_prompt_content stat_fault d t = Return (Utf8.universal_newlines text).
Proof.
  intros Hs Hc Hd.
  unfold read_prompt_content, path_exists, path_is_file, stat, open_read.
  by rewrite Hs, Hc, Hd.
Qed.

Lemma read_prompt_content_outcomes stat_fault d t :
  (is_safe_task_name t = false
   ∧ read_prompt_content stat_fault d t
     = Raise (ValueError ("Invalid task name: " +:+ t)))
  ∨ (is_safe_task_name t = true
     ∧ path_is_file stat_fault d (t +:+ ".txt") = Return false
     ∧ read_prompt_content stat_fault d t
       = Raise (FileNotFoundError ("Prompt not found for task: " +:+ t)))
  ∨ (is_safe_task_name t = true
     ∧ (∃ os_message, child d (t +:+ ".txt") = Some (Unreadable os_message))
     ∧ read_prompt_content stat_fault d t
       = Raise (IOError ("Error reading prompt file for task: " +:+ t)))
  ∨ (is_safe_task_name t = true
     ∧ ∃ data, child d (t +:+ ".txt") = Some (RegularFile data)
               ∧ Utf8.decode data = None
               ∧ read_prompt_content stat_fault d t = Raise (UnicodeDecodeError data))
  ∨ (is_safe_task_name t = true
     ∧ ∃ data text, child d (t +:+ ".txt") = Some (RegularFile data)
                    ∧ Utf8.decode data = Some text
                    ∧ read_prompt_content stat_fault d t
                      = Return (Utf8.universal_newlines text))
  ∨ (is_safe_task_name t = true
     ∧ ∃ os_message, child d (t +:+ ".txt") = None
                     ∧ stat_fault (t +:+ ".txt") = Some os_message
                     ∧ read_prompt_content stat_fault d t = Raise (IOError os_message)).
Proof.
  destruct (is_safe_task_name t) eqn:Hs; [right|left; eauto using read_invalid].
  destruct (child d (t +:+ ".txt")) as [[|data|os_message|]|] eqn:Hc.
  - left. split_and!; [done| |by eapply read_not_regular; eauto].
    unfold path_is_file. by rewrite (stat_held _ _ _ _ Hc).
  - right; right. destruct (Utf8.decode data) as [text|] eqn:Hd.
    + right; left. split; [done|]. exists data, text. eauto using read_text.
    + left. split; [done|]. exists data. eauto using read_undecodable.
  - right; left. split_and!; [done|eauto|]. by eapply read_unreadable.
  - left. split_and!; [done| |by eapply read_not_regular; eauto].
    unfold path_is_file. by rewrite (stat_held _ _ _ _ Hc).
  - destruct (stat_fault (t +:+ ".txt")) as [os_message|] eqn:Hf.
    + do 4 right. split; [done|]. exists os_message. eauto using read_stat_fault.
    + left. split_and!; [done| |by apply read_missing].
      unfold path_is_file, stat. by rewrite Hc, Hf.
Qed.

Lemma read_depends_on_child stat_fault d d' t :
  child d' (t +:+ ".txt") = child d (t +:+ ".txt") →
  read_prompt_content stat_fault d' t = read_prompt_content stat_fault d t.
Proof.
  intros Hc.
  unfold read_prompt_content, path_exists, path_is_file, stat, open_read.
  by rewrite Hc.
Qed.

Lemma universal_newlines_without_CR s :
  Py.CR ∉ Py.chars s → Utf8.universal_newlines s = s.
Proof.
  induction s as [|c s IH]; [done|].
  rewrite chars_cons, not_elem_of_cons. intros [Hc Hs]. simpl.
  destruct (Ascii.eqb_spec c Py.CR) as [->|_]; [done|].
  by rewrite IH.
Qed.

(** C3, at a directory that holds a subdirectory [drafts.txt].  The glob
    yields it like a file, so the catalog has the name [drafts] and the
    listing a tool for it, although the directory holds no [.txt] file;
    the loader, which tests for a regular file, does not find it. *)
Theorem get_available_prompts_lists_directory stat_fault :
  get_available_prompts (Listing [("drafts.txt", Directory)]) = ["drafts"]
  ∧ name <$> list_tools (Listing [("drafts.txt", Directory)])
    = ["list_available_prompts"; "get_prompt_drafts"; "get_prompt_by_name"]
  ∧ path_is_file stat_fault (Listing [("drafts.txt", Directory)]) "drafts.txt"
    = Return false
  ∧ read_prompt_content stat_fault (Listing [("drafts.txt", Directory)]) "drafts"
    = Raise (FileNotFoundError "Prompt not found for task: drafts").
Proof. done. Qed.

(** C2, at a file whose bytes are not UTF-8.  The name [notes] passes the
    validator and [notes.txt] is a regular file that the system lets the
    server read, but its one byte [FF] does not decode, and the loader
    fails with the decoder's [UnicodeDecodeError]: not with its
    invalid-identifier, not-found or I/O error, whatever their message. *)
Theorem read_prompt_content_undecodable_file stat_fault :
  is_safe_task_name "notes" = true
  ∧ path_exists stat_fault
      (Listing [("notes.txt", RegularFile (String (ascii_of_nat 255) ""))])
      "notes.txt" = Return true
  ∧ path_is_file stat_fault
      (Listing [("notes.txt", RegularFile (String (ascii_of_nat 255) ""))])
      "notes.txt" = Return true
  ∧ read_prompt_content stat_fault
      (Listing [("notes.txt", RegularFile (String (ascii_of_nat 255) ""))]) "notes"
    = Raise (UnicodeDecodeError (String (ascii_of_nat 255) ""))
  ∧ ∀ msg,
      read_prompt_content stat_fault
        (Listing [("notes.txt", RegularFile (String (ascii_of_nat 255) ""))]) "notes"
      ∉ [Raise (ValueError msg); Raise (FileNotFoundError msg); Raise (IOError msg)].
Proof.
  split_and!; try done.
  intros msg. rewrite !not_elem_of_cons. split_and!; try done.
  apply not_elem_of_nil.
Qed.

(** C6, as the claim states it, fails: a file with a carriage return and
    line feed is not returned as it is. *)
Lemma read_prompt_content_verbatim_counterexample :
  ¬ (∀ d t data text,
       is_safe_task_name t = true →
       child d (t +:+ ".txt") = Some (RegularFile data) →
       Utf8.decode data = Some text →
       read_prompt_content (λ _, None) d t = Return text).
Proof.
  intros H.
  specialize (H (Listing [("create_prd.txt",
                           RegularFile ("a" +:+ String Py.CR Py.LF +:+ "b"))])
                "create_prd" ("a" +:+ String Py.CR Py.LF +:+ "b")
                ("a" +:+ String Py.CR Py.LF +:+ "b") eq_refl eq_refl eq_refl).
  vm_compute in H. discriminate H.
Qed.

(** C6, amended.  For a valid task name whose file is a regular file with
    well-formed UTF-8 content, the loader returns the decoded text with
    every [\r\n] and every other [\r] replaced by [\n]; this is the decoded
    text itself when the file has no carriage return.  The result depends
    on nothing but that file, so loading again gives the same content. *)
Theorem read_prompt_content_success stat_fault d t data text :
  is_safe_task_name t = true →
  child d (t +:+ ".txt") = Some (RegularFile data) →
  Utf8.decode data = Some text →
  read_prompt_content stat_fault d t = Return (Utf8.universal_newlines text)
  ∧ (Py.CR ∉ Py.chars text → read_prompt_content stat_fault d t = Return text)
  ∧ (∀ d', child d' (t +:+ ".txt") = child d (t +:+ ".txt") →
           read_prompt_content stat_fault d' t = read_prompt_content stat_fault d t).
Proof.
  intros Hs Hc Hd. split_and!.
  - by apply (read_text stat_fault d t data).
  - intros Hcr. rewrite (read_text stat_fault d t data text) by done.
    by rewrite universal_newlines_without_CR.
  - intros d'. apply read_depends_on_child.
Qed.

Lemma read_prompt_content_success_witness :
  read_prompt_content (λ _, None)
    (Listing [("review_tasks.txt", RegularFile "r"); ("create_prd.txt", RegularFile "# PRD")])
    "create_prd"
  = Return "# PRD".
Proof.
  apply (read_prompt_content_success (λ _, None)
           (Listing [("review_tasks.txt", RegularFile "r");
                     ("create_prd.txt", RegularFile "# PRD")])
           "create_prd" "# PRD" "# PRD"); reflexivity.
Defined.

(** ** The tool listing *)

Lemma add_prompt_tools_spec available_prompts tools :
  add_prompt_tools available_prompts tools
  = tools ++ (prompt_tool <$> available_prompts).
Proof.
  revert tools. induction available_prompts as [|n l IH]; intros tools; simpl.
  - by rewrite app_nil_r.
  - rewrite IH, <-app_assoc. reflexivity.
Qed.

Lemma list_tools_eq d :
  list_tools d
  = list_prompts_tool :: (prompt_tool <$> get_available_prompts d) ++ [by_name_tool].
Proof. unfold list_tools. by rewrite add_prompt_tools_spec. Qed.

Lemma prompt_tool_suffix n :
  Py.slice_from (Py.len "get_prompt_") (name (prompt_tool n)) = n.
Proof. apply (slice_from_app "get_prompt_" n). Qed.

(** C10.  The listing starts with [list_available_prompts], ends with
    [get_prompt_by_name], and has in between one tool for each catalog
    entry, in the catalog's sorted order, named [get_prompt_] followed by
    the entry; it has two tools more than the catalog has entries, and what
    follows the prefix in the name of a tool in between passes the
    validator. *)
Theorem list_tools_spec d :
  list_tools d
  = list_prompts_tool :: (prompt_tool <$> get_available_prompts d) ++ [by_name_tool]
  ∧ length (list_tools d) = length (get_available_prompts d) + 2
  ∧ name <$> list_tools d
    = "list_available_prompts"
        :: ((λ n, "get_prompt_" +:+ n) <$> get_available_prompts d)
        ++ ["get_prompt_by_name"]
  ∧ StronglySorted String.le (get_available_prompts d)
  ∧ Forall (λ n, is_safe_task_name n = true) (get_available_prompts d)
  ∧ Forall (λ tool, is_safe_task_name
                      (Py.slice_from (Py.len "get_prompt_") (name tool)) = true)
      (prompt_tool <$> get_available_prompts d).
Proof.
  split_and!.
  - apply list_tools_eq.
  - rewrite list_tools_eq. simpl. rewrite length_app, length_fmap. simpl. lia.
  - rewrite list_tools_eq. rewrite fmap_cons, fmap_app, <-list_fmap_compose.
    reflexivity.
  - apply sorted_catalog.
  - apply safe_catalog.
  - apply Forall_fmap. eapply Forall_impl; [apply safe_catalog|].
    intros n Hn. unfold compose. by rewrite prompt_tool_suffix.
Qed.

(** ** The dispatcher *)

Lemma prefixed_not_listing nm :
  Py.startswith "get_prompt_" nm = true →
  String.eqb nm "list_available_prompts" = false.
Proof.
  intros [q ->]%startswith_spec. by apply String.eqb_neq.
Qed.

Lemma call_by_name msg stat_fault d args :
  call_tool msg stat_fault d "get_prompt_by_name" args
  = let task_name := dict_get args "task_name" in
    if negb (truthy task_name)
    then [text_content "Error: task_name parameter is required"]
    else
      match as_str task_name with
      | Raise e => [text_content ("Unexpected error: " +:+ str_exn msg e)]
      | Return t =>
          match read_prompt_content stat_fault d t with
          | Return prompt_content =>
              [text_content ("Prompt for '" +:+ t +:+ "':" +:+ Py.LF +:+ Py.LF
                               +:+ prompt_content)]
          | Raise e =>
              if loader_errors e
              then [text_content ("Error: " +:+ str_exn msg e)]
              else [text_content ("Unexpected error: " +:+ str_exn msg e)]
          end
      end.
Proof.
  unfold call_tool, call_tool_body. simpl.
  destruct (negb (truthy (dict_get args "task_name"))); [done|].
  destruct (dict_get args "task_name"); simpl; try done.
  destruct (read_prompt_content stat_fault d s) as [e|c]; simpl; [|done].
  by destruct (loader_errors e).
Qed.

Lemma call_by_name_str msg stat_fault d (args : gmap string pyval) t :
  args !! "task_name" = Some (PyStr t) → t ≠ "" →
  call_tool msg stat_fault d "get_prompt_by_name" args
  = match read_prompt_content stat_fault d t with
    | Return prompt_content =>
        [text_content ("Prompt for '" +:+ t +:+ "':" +:+ Py.LF +:+ Py.LF
                         +:+ prompt_content)]
    | Raise e =>
        if loader_errors e
        then [text_content ("Error: " +:+ str_exn msg e)]
        else [text_content ("Unexpected error: " +:+ str_exn msg e)]
    end.
Proof.
  intros Ha Ht. rewrite call_by_name. unfold dict_get. rewrite Ha. simpl.
  by apply String.eqb_neq in Ht as ->.
Qed.

Lemma call_prefixed msg stat_fault d nm args :
  Py.startswith "get_prompt_" nm = true → nm ≠ "get_prompt_by_name" →
  call_tool msg stat_fault d nm args
  = let t := Py.slice_from (Py.len "get_prompt_") nm in
    match read_prompt_content stat_fault d t with
    | Return prompt_content =>
        [text_content ("Prompt for '" +:+ t +:+ "':" +:+ Py.LF +:+ Py.LF
                         +:+ prompt_content)]
    | Raise e =>
        if loader_errors e
        then [text_content ("Error: " +:+ str_exn msg e)]
        else [text_content ("Unexpected error: " +:+ str_exn msg e)]
    end.
Proof.
  intros Hp Hne. unfold call_tool, call_tool_body.
  rewrite (prefixed_not_listing nm Hp), Hp.
  apply String.eqb_neq in Hne as ->. cbv zeta.
  destruct (read_prompt_content stat_fault d _) as [e|c]; simpl; [|done].
  by destruct (loader_errors e).
Qed.

Lemma loader_raises_loader_errors stat_fault d t e :
  read_prompt_content stat_fault d t = Raise e → loader_errors e = true.
Proof.
  intros H.
  destruct (read_prompt_content_outcomes stat_fault d t)
    as [[_ H']|[(_ & _ & H')|[(_ & _ & H')|[(_ & data & _ & _ & H')
       |[(_ & data & text & _ & _ & H')|(_ & os_message & _ & _ & H')]]]]];
    rewrite H' in H; by simplify_eq.
Qed.

(** C4, as the claim states it, fails at the bare prefix: the recovered
    name is empty, the per-resource branch answers that the name is
    invalid, and the fetch by name answers that its parameter is
    required. *)
Lemma prefix_branch_differs_counterexample :
  ¬ (∀ (msg : exn → string) d nm (args : gmap string pyval),
       Py.startswith "get_prompt_" nm = true →
       nm ≠ "get_prompt_by_name" →
       call_tool msg (λ _, None) d nm args
       = call_tool msg (λ _, None) d "get_prompt_by_name"
           {[ "task_name" := PyStr (Py.slice_from (Py.len "get_prompt_") nm) ]}).
Proof.
  intros H.
  specialize (H (λ _, "") Absent "get_prompt_" ∅ eq_refl).
  vm_compute in H. by specialize (H ltac:(discriminate)).
Qed.

(** C4, amended.  For an identifier that begins with [get_prompt_], is not
    [get_prompt_by_name] and is longer than the prefix, the dispatcher
    strips the prefix and answers exactly as the fetch by name does when
    its [task_name] is the recovered name.  An identifier that is neither
    of the two generic names nor begins with the prefix is answered with
    [Error: Unknown tool '<name>']. *)
Theorem call_tool_prefixed_spec (msg : exn → string) stat_fault d nm
    (args args' : gmap string pyval) :
  (Py.startswith "get_prompt_" nm = true →
   nm ≠ "get_prompt_by_name" →
   Py.slice_from (Py.len "get_prompt_") nm ≠ "" →
   args' !! "task_name" = Some (PyStr (Py.slice_from (Py.len "get_prompt_") nm)) →
   call_tool msg stat_fault d nm args
   = call_tool msg stat_fault d "get_prompt_by_name" args')
  ∧ (nm ≠ "list_available_prompts" →
     nm ≠ "get_prompt_by_name" →
     Py.startswith "get_prompt_" nm = false →
     call_tool msg stat_fault d nm args
     = [text_content ("Error: Unknown tool '" +:+ nm +:+ "'")]).
Proof.
  split.
  - intros Hp Hne Ht Ha.
    rewrite call_prefixed by done.
    by rewrite (call_by_name_str msg stat_fault d args' _ Ha Ht).
  - intros Hl Hb Hp. unfold call_tool, call_tool_body.
    apply String.eqb_neq in Hl as ->. apply String.eqb_neq in Hb as ->.
    by rewrite Hp.
Qed.

Lemma call_tool_prefixed_spec_witness :
  call_tool (λ _, "") (λ _, None) (Listing [("create_prd.txt", RegularFile "# PRD")])
    "get_prompt_create_prd" ∅
  = call_tool (λ _, "") (λ _, None) (Listing [("create_prd.txt", RegularFile "# PRD")])
      "get_prompt_by_name" {[ "task_name" := PyStr "create_prd" ]}
  ∧ call_tool (λ _, "") (λ _, None) (Listing [("create_prd.txt", RegularFile "# PRD")])
      "fetch_create_prd" ∅
    = [text_content "Error: Unknown tool 'fetch_create_prd'"].
Proof.
  split.
  - apply (call_tool_prefixed_spec (λ _, "") (λ _, None)
             (Listing [("create_prd.txt", RegularFile "# PRD")])
             "get_prompt_create_prd" ∅ {[ "task_name" := PyStr "create_prd" ]});
      [reflexivity|discriminate|discriminate|reflexivity].
  - apply (call_tool_prefixed_spec (λ _, "") (λ _, None)
             (Listing [("create_prd.txt", RegularFile "# PRD")])
             "fetch_create_prd" ∅ ∅);
      [discriminate|discriminate|reflexivity].
Defined.



(** C7.  Every call of the dispatcher answers with one text content, and
    when the handling of the call raises an exception the answer is
    [Unexpected error: ] followed by the exception's message. *)
Theorem call_tool_total (msg : exn → string) stat_fault d nm
    (args : gmap string pyval) :
  (∃ t, call_tool msg stat_fault d nm args = [text_content t])
  ∧ (∀ e, call_tool_body msg stat_fault d nm args = Raise e →
          call_tool msg stat_fault d nm args
          = [text_content ("Unexpected error: " +:+ str_exn msg e)]).
Proof.
  split.
  - unfold call_tool, call_tool_body, try_except, bind.
    repeat case_match; simplify_eq; eauto.
  - intros e He. unfold call_tool. by rewrite He.
Qed.

Lemma call_tool_total_witness :
  call_tool_body (λ _, "expected string or bytes-like object") (λ _, None) Absent
    "get_prompt_by_name" {[ "task_name" := PyInt 5 ]}
  = Raise (TypeError (PyInt 5))
  ∧ call_tool (λ _, "expected string or bytes-like object") (λ _, None) Absent
      "get_prompt_by_name" {[ "task_name" := PyInt 5 ]}
    = [text_content "Unexpected error: expected string or bytes-like object"].
Proof.
  split; [reflexivity|].
  apply (proj2 (call_tool_total (λ _, "expected string or bytes-like object") (λ _, None)
                  Absent "get_prompt_by_name" {[ "task_name" := PyInt 5 ]})
           (TypeError (PyInt 5))).
  reflexivity.
Defined.

(** C8.  [get_prompt_by_name] is the fetch by name, whatever the directory
    holds: without a [task_name] it answers that the parameter is
    required.  This is so even when the catalog has an entry [by_name],
    for which the listing advertises a per-resource tool of the same
    name. *)
Theorem call_tool_by_name_is_generic (msg : exn → string) stat_fault d
    (args : gmap string pyval) :
  args !! "task_name" = None →
  call_tool msg stat_fault d "get_prompt_by_name" args
  = [text_content "Error: task_name parameter is required"]
  ∧ ("by_name" ∈ get_available_prompts d →
     prompt_tool "by_name" ∈ list_tools d
     ∧ name (prompt_tool "by_name") = "get_prompt_by_name").
Proof.
  intros Ha. split.
  - rewrite call_by_name. unfold dict_get. by rewrite Ha.
  - intros Hin. split; [|done]. rewrite list_tools_eq.
    apply list_elem_of_further, elem_of_app. left.
    by apply list_elem_of_fmap_2.
Qed.

Lemma call_tool_by_name_is_generic_witness :
  child (Listing [("by_name.txt", RegularFile "secret")]) "by_name.txt"
  = Some (RegularFile "secret")
  ∧ call_tool (λ _, "") (λ _, None) (Listing [("by_name.txt", RegularFile "secret")])
      "get_prompt_by_name" ∅
    = [text_content "Error: task_name parameter is required"]
  ∧ name <$> list_tools (Listing [("by_name.txt", RegularFile "secret")])
    = ["list_available_prompts"; "get_prompt_by_name"; "get_prompt_by_name"].
Proof.
  split_and!; [reflexivity| |reflexivity].
  apply (call_tool_by_name_is_generic (λ _, "") (λ _, None)
           (Listing [("by_name.txt", RegularFile "secret")]) ∅).
  reflexivity.
Defined.

(** C9.  The bare prefix [get_prompt_] recovers the empty name, and the
    answer is the loader's invalid-name error with nothing after the
    colon. *)
Theorem call_tool_bare_prefix (msg : exn → string) stat_fault d
    (args : gmap string pyval) :
  Py.slice_from (Py.len "get_prompt_") "get_prompt_" = ""
  ∧ call_tool msg stat_fault d "get_prompt_" args
    = [text_content "Error: Invalid task name: "]
  ∧ call_tool msg stat_fault d "get_prompt_" args
    ≠ [text_content "Error: Unknown tool 'get_prompt_'"]
  ∧ call_tool msg stat_fault d "get_prompt_" args
    ≠ [text_content "Error: task_name parameter is required"].
Proof. split_and!; done. Qed.

(** * Further properties of the code *)

(** ** The validator and file names *)

Lemma chars_app s t : Py.chars (s +:+ t) = Py.chars s ++ Py.chars t.
Proof.
  induction s as [|c s IH]; [done|].
  rewrite sapp_cons, !chars_cons, IH. reflexivity.
Qed.

Lemma chars_nil_inv s : Py.chars s = [] → s = "".
Proof. by destruct s. Qed.

Lemma word_char_codes c :
  word_char c →
  (N_of_ascii c < 128)%N
  ∧ c ≠ "/"%char ∧ c ≠ "\"%char ∧ c ≠ "."%char ∧ c ≠ "000"%char.
Proof.
  unfold word_char. cbv zeta. intros H.
  split_and!; [lia|..]; intros ->; simpl in H; lia.
Qed.

Lemma occurs_chars sub s c : occurs sub s → c ∈ Py.chars sub → c ∈ Py.chars s.
Proof.
  intros (p & q & ->) Hc. rewrite !chars_app, !elem_of_app. auto.
Qed.

Lemma is_safe_chars s :
  is_safe_task_name s = true ↔ s ≠ "" ∧ Forall word_char (Py.chars s).
Proof.
  rewrite is_safe_task_name_iff. split; [by intros (? & ? & _)|].
  intros [Hne Hall]. split_and!; [done..|].
  intros Hocc. apply (occurs_chars _ _ "."%char) in Hocc; [|by left].
  eapply Forall_forall in Hall; [|done].
  by apply word_char_codes in Hall as (_ & _ & _ & ? & _).
Qed.

Lemma is_safe_app s t :
  is_safe_task_name s = true → is_safe_task_name t = true →
  is_safe_task_name (s +:+ t) = true.
Proof.
  rewrite !is_safe_chars, chars_app. intros [Hs Hcs] [Ht Hct]. split.
  - intros [-> _]%sapp_eq_nil. done.
  - by apply Forall_app.
Qed.

(** X1.  The first and the last test of the validator never decide: a
    string passes exactly when the pattern matches it whole. *)
Theorem is_safe_task_name_is_fullmatch s :
  is_safe_task_name s = Re.fullmatch task_name_pattern s.
Proof.
  destruct (Re.fullmatch task_name_pattern s) eqn:Hm.
  - apply is_safe_chars. apply plus_class_spec in Hm as [Hne Hall].
    split; [done|]. eapply Forall_impl; [exact Hall|].
    intros c. apply task_name_class.
  - destruct (is_safe_task_name s) eqn:Hs; [|done].
    apply is_safe_chars in Hs as [Hne Hall]. rewrite <-Hm. symmetry.
    apply plus_class_spec. split; [done|].
    eapply Forall_impl; [exact Hall|]. intros c. apply task_name_class.
Qed.

Lemma no_dot_pair_before_suffix t :
  Forall (λ c, c ≠ "."%char) (Py.chars t) →
  Py.contains ".." (t +:+ ".txt") = false.
Proof.
  induction t as [|c t IH]; [done|].
  rewrite chars_cons, Forall_cons, sapp_cons. intros [Hc Ht].
  change (Py.contains ".." (String c (t +:+ ".txt")))
    with (Ascii.eqb "." c && Py.startswith "." (t +:+ ".txt")
          || Py.contains ".." (t +:+ ".txt")).
  rewrite IH by done.
  destruct (Ascii.eqb_spec "." c) as [<-|_]; [done|]. reflexivity.
Qed.

(** X2.  An accepted name is a single path component: its characters are
    ASCII and none is a slash, a backslash, a dot or the null character, so
    [<name>.txt] has no separator and no [..] in it. *)
Theorem safe_name_is_path_component t :
  is_safe_task_name t = true →
  Forall (λ c, (N_of_ascii c < 128)%N
               ∧ c ≠ "/"%char ∧ c ≠ "\"%char ∧ c ≠ "."%char ∧ c ≠ "000"%char)
    (Py.chars t)
  ∧ ¬ occurs "/" (t +:+ ".txt")
  ∧ ¬ occurs ".." (t +:+ ".txt").
Proof.
  intros [Hne Hall]%is_safe_chars.
  assert (Forall (λ c, (N_of_ascii c < 128)%N
               ∧ c ≠ "/"%char ∧ c ≠ "\"%char ∧ c ≠ "."%char ∧ c ≠ "000"%char)
            (Py.chars t)) as Hcodes.
  { eapply Forall_impl; [exact Hall|]. apply word_char_codes. }
  split_and!; [done|..].
  - intros Hocc. apply (occurs_chars _ _ "/"%char) in Hocc; [|by left].
    rewrite chars_app, elem_of_app in Hocc. destruct Hocc as [Hin|Hin].
    + eapply Forall_forall in Hcodes; [|done]. by destruct Hcodes as (_ & ? & _).
    + revert Hin. apply (bool_decide_unpack _). by vm_compute.
  - rewrite <-contains_spec, no_dot_pair_before_suffix; [done|].
    eapply Forall_impl; [exact Hcodes|]. by intros c (_ & _ & _ & ? & _).
Qed.

Lemma safe_name_is_path_component_witness :
  is_safe_task_name "create_prd" = true ∧ ¬ occurs "/" ("create_prd" +:+ ".txt").
Proof.
  split; [reflexivity|].
  apply (safe_name_is_path_component "create_prd"). reflexivity.
Defined.

(** X3.  Task names and file names go back and forth: for an accepted
    name [t], the file name [t.txt] matches the glob and its stem is [t];
    and a file name that matches the glob and whose stem is accepted is
    that stem followed by [.txt]. *)
Theorem task_name_file_name_round_trip :
  (∀ t, is_safe_task_name t = true →
        Py.endswith ".txt" (t +:+ ".txt") = true ∧ stem (t +:+ ".txt") = t)
  ∧ (∀ n, Py.endswith ".txt" n = true → is_safe_task_name (stem n) = true →
          stem n +:+ ".txt" = n).
Proof.
  split.
  - intros t Ht. split; [apply endswith_txt; eauto|by apply stem_of_safe].
  - intros n Hn Hs. symmetry. by apply safe_stem_inv.
Qed.

Lemma task_name_file_name_round_trip_witness :
  stem ("review_tasks" +:+ ".txt") = "review_tasks"
  ∧ stem "review_tasks.txt" +:+ ".txt" = "review_tasks.txt".
Proof.
  split.
  - apply (proj1 task_name_file_name_round_trip "review_tasks"). reflexivity.
  - apply (proj2 task_name_file_name_round_trip "review_tasks.txt"); reflexivity.
Defined.

(** X4.  The name of every tool in the listing is itself made of letters,
    digits and underscores only. *)
Theorem tool_names_pass_validator d :
  Forall (λ tool, is_safe_task_name (name tool) = true) (list_tools d).
Proof.
  rewrite list_tools_eq. apply Forall_cons. split; [done|].
  apply Forall_app. split; [|by repeat constructor].
  apply Forall_fmap. eapply Forall_impl; [apply safe_catalog|].
  intros n Hn. unfold compose. by apply (is_safe_app "get_prompt_" n).
Qed.

(** ** The catalog against the loader *)








(** X7.  When the names of the directory's entries are distinct, the names
    of the listed tools are distinct exactly when the catalog has no entry
    [by_name]: that entry's tool is named like the generic
    [get_prompt_by_name], and no other two tools share a name. *)
Theorem tool_names_distinct_iff d :
  NoDup (entry_names d) →
  NoDup (name <$> list_tools d) ↔ "by_name" ∉ get_available_prompts d.
Proof.
  intros Hnd.
  assert (NoDup (get_available_prompts d)) as Hcat.
  { destruct d as [| |entries]; try constructor. by apply NoDup_catalog. }
  assert (name <$> list_tools d
          = "list_available_prompts"
              :: (String.append "get_prompt_" <$> get_available_prompts d)
              ++ ["get_prompt_by_name"]) as ->.
  { rewrite list_tools_eq, fmap_cons, fmap_app, <-list_fmap_compose. reflexivity. }
  rewrite NoDup_cons, NoDup_app, (NoDup_fmap (String.append "get_prompt_")).
  split.
  - intros (_ & _ & Hdisj & _) Hin. apply (Hdisj "get_prompt_by_name").
    + by apply (list_elem_of_fmap_2 (String.append "get_prompt_")) in Hin.
    + by left.
  - intros Hnot. split_and!; [|done| |apply NoDup_singleton].
    + rewrite elem_of_app, list_elem_of_fmap, list_elem_of_singleton.
      by intros [(n & Heq & _)|Heq].
    + intros x (n & -> & Hn)%list_elem_of_fmap Heq%list_elem_of_singleton.
      apply Hnot.
      by apply (inj (String.append "get_prompt_") n "by_name") in Heq as <-.
Qed.

Lemma tool_names_distinct_iff_witness :
  NoDup (name <$> list_tools (Listing [("create_prd.txt", RegularFile "a");
                                       ("review_tasks.txt", RegularFile "b")])).
Proof.
  apply (tool_names_distinct_iff
           (Listing [("create_prd.txt", RegularFile "a");
                     ("review_tasks.txt", RegularFile "b")])).
  - apply (bool_decide_unpack _). by vm_compute.
  - apply (bool_decide_unpack _). by vm_compute.
Defined.

(** ** The dispatcher *)

(** X8.  The handling of a call raises only in one case: the fetch by name
    with a [task_name] that is true and not a string, which raises the
    [TypeError] of the pattern match.  In particular no call of a
    per-resource tool and no listing is answered with [Unexpected error]. *)
Theorem call_tool_body_raises_iff (msg : exn → string) stat_fault d nm
    (args : gmap string pyval) e :
  call_tool_body msg stat_fault d nm args = Raise e ↔
  nm = "get_prompt_by_name"
  ∧ ∃ v, args !! "task_name" = Some v ∧ truthy v = true
         ∧ (∀ s, v ≠ PyStr s) ∧ e = TypeError v.
Proof.
  unfold call_tool_body.
  destruct (String.eqb_spec nm "list_available_prompts") as [->|Hl].
  { split; [done|]. by intros [? _]. }
  destruct (String.eqb_spec nm "get_prompt_by_name") as [->|Hb].
  - unfold dict_get. destruct (args !! "task_name") as [v|] eqn:Ha; simpl.
    + destruct (truthy v) eqn:Hv; simpl.
      * destruct v as [|b|z|s|l|l]; simpl;
          try (split; [intros [= <-]; split; [done|]; eexists; by split_and!
                      |by intros (_ & v' & [= <-] & _ & _ & ->)]).
        split.
        -- destruct (read_prompt_content stat_fault d s) as [e'|c] eqn:Hr; simpl; [|done].
           by rewrite (loader_raises_loader_errors stat_fault d s e' Hr).
        -- intros (_ & v' & [= <-] & _ & Hns & _). by destruct (Hns s).
      * split; [done|]. intros (_ & v' & [= <-] & Hv' & _). congruence.
    + split; [done|]. by intros (_ & v' & ? & _).
  - split; [|by intros [? _]].
    destruct (Py.startswith "get_prompt_" nm); [|done].
    destruct (read_prompt_content stat_fault d _) as [e'|c] eqn:Hr; simpl; [|done].
    by rewrite (loader_raises_loader_errors stat_fault d _ e' Hr).
Qed.

Lemma call_tool_body_raises_iff_witness :
  call_tool_body (λ _, "") (λ _, None) Absent "get_prompt_by_name"
    {[ "task_name" := PyList [PyStr "create_prd"] ]}
  = Raise (TypeError (PyList [PyStr "create_prd"])).
Proof.
  apply (call_tool_body_raises_iff (λ _, "") (λ _, None) Absent "get_prompt_by_name"
           {[ "task_name" := PyList [PyStr "create_prd"] ]}).
  split; [reflexivity|]. exists (PyList [PyStr "create_prd"]).
  split_and!; [reflexivity|reflexivity|discriminate|reflexivity].
Defined.

(** X9.  A per-resource tool ignores its arguments and answers with the
    loader's outcome for the name after the prefix: the text under its
    header, or [Error: ] and the loader's message. *)
Theorem call_tool_per_resource (msg : exn → string) stat_fault d n
    (args : gmap string pyval) :
  n ≠ "by_name" →
  call_tool msg stat_fault d (name (prompt_tool n)) args
  = match read_prompt_content stat_fault d n with
    | Return prompt_content =>
        [text_content ("Prompt for '" +:+ n +:+ "':" +:+ Py.LF +:+ Py.LF
                         +:+ prompt_content)]
    | Raise e => [text_content ("Error: " +:+ str_exn msg e)]
    end.
Proof.
  intros Hn. change (name (prompt_tool n)) with ("get_prompt_" +:+ n).
  rewrite call_prefixed.
  - cbv zeta. rewrite (slice_from_app "get_prompt_" n).
    destruct (read_prompt_content stat_fault d n) as [e|c] eqn:Hr; [|done].
    by rewrite (loader_raises_loader_errors stat_fault d n e Hr).
  - apply startswith_spec. eauto.
  - intros Heq. apply Hn.
    by apply (inj (String.append "get_prompt_") n "by_name") in Heq.
Qed.

Lemma call_tool_per_resource_witness :
  call_tool (λ _, "") (λ _, None) (Listing [("create_prd.txt", RegularFile "# PRD")])
    "get_prompt_create_prd" {[ "task_name" := PyStr "review_tasks" ]}
  = [text_content ("Prompt for 'create_prd':" +:+ Py.LF +:+ Py.LF +:+ "# PRD")].
Proof.
  apply (call_tool_per_resource (λ _, "") (λ _, None)
           (Listing [("create_prd.txt", RegularFile "# PRD")]) "create_prd"
           {[ "task_name" := PyStr "review_tasks" ]}).
  discriminate.
Defined.



(** ** The text the loader returns *)

Lemma universal_newlines_cons c s :
  Utf8.universal_newlines (String c s)
  = if Ascii.eqb c Py.CR then
      match s with
      | EmptyString => Py.LF
      | String d s' =>
          if Ascii.eqb d (ascii_of_nat 10)
          then Py.LF +:+ Utf8.universal_newlines s'
          else Py.LF +:+ Utf8.universal_newlines s
      end
    else String c (Utf8.universal_newlines s).
Proof. reflexivity. Qed.

Lemma universal_newlines_no_CR_bounded n s :
  Py.len s ≤ n → Py.CR ∉ Py.chars (Utf8.universal_newlines s).
Proof.
  revert s. induction n as [|n IH]; intros [|c s] Hlen;
    try (by intros ?%elem_of_nil); [simpl in Hlen; lia|].
  assert (Py.len s ≤ n) as Hs by (simpl in Hlen; lia).
  rewrite universal_newlines_cons.
  destruct (Ascii.eqb_spec c Py.CR) as [->|Hc].
  - destruct s as [|d s].
    + apply (bool_decide_unpack _). by vm_compute.
    + destruct (Ascii.eqb d (ascii_of_nat 10));
        rewrite chars_app, not_elem_of_app; (split; [by apply (bool_decide_unpack _)|]).
      * apply IH. simpl in Hs. lia.
      * by apply IH.
  - rewrite chars_cons, not_elem_of_cons. split; [done|]. by apply IH.
Qed.

Lemma universal_newlines_no_CR s : Py.CR ∉ Py.chars (Utf8.universal_newlines s).
Proof. by apply (universal_newlines_no_CR_bounded (Py.len s)). Qed.

(** X11.  A text the loader returns has no carriage return, and passing it
    through the translation of line endings again changes nothing. *)
Theorem loaded_text_has_no_carriage_return stat_fault d t prompt_content :
  read_prompt_content stat_fault d t = Return prompt_content →
  (Py.CR ∉ Py.chars prompt_content)
  ∧ Utf8.universal_newlines prompt_content = prompt_content.
Proof.
  intros Hread.
  assert (∃ text, prompt_content = Utf8.universal_newlines text) as [text ->].
  { destruct (read_prompt_content_outcomes stat_fault d t)
      as [[_ H]|[(_ & _ & H)|[(_ & _ & H)|[(_ & data & _ & _ & H)
         |[(_ & data & text & _ & _ & H)|(_ & os_message & _ & _ & H)]]]]];
      rewrite H in Hread; simplify_eq.
    eauto. }
  split; [apply universal_newlines_no_CR|].
  apply universal_newlines_without_CR, universal_newlines_no_CR.
Qed.

Lemma loaded_text_has_no_carriage_return_witness :
  read_prompt_content (λ _, None)
    (Listing [("create_prd.txt", RegularFile ("a" +:+ String Py.CR Py.LF +:+ "b"))])
    "create_prd"
  = Return ("a" +:+ Py.LF +:+ "b")
  ∧ Py.CR ∉ Py.chars ("a" +:+ Py.LF +:+ "b").
Proof.
  split; [reflexivity|].
  apply (loaded_text_has_no_carriage_return (λ _, None)
           (Listing [("create_prd.txt",
                      RegularFile ("a" +:+ String Py.CR Py.LF +:+ "b"))])
           "create_prd" ("a" +:+ Py.LF +:+ "b")).
  reflexivity.
Defined.

Lemma ascii_is_utf8 data :
  Forall (λ c, (N_of_ascii c < 128)%N) (Py.chars data) → Utf8.valid data = true.
Proof.
  induction data as [|c data IH]; [done|].
  rewrite chars_cons, Forall_cons. intros [Hc Hdata].
  change (Utf8.valid (String c data))
    with (if Utf8.between 0 127 c then Utf8.valid data
          else match data with
               | EmptyString => false
               | String b1 s2 =>
                   if Utf8.between 194 223 c then Utf8.cont b1 && Utf8.valid s2
                   else match s2 with
                        | EmptyString => false
                        | String b2 s3 =>
                            if Utf8.between 224 239 c
                            then Utf8.second3 c b1 && Utf8.cont b2 && Utf8.valid s3
                            else match s3 with
                                 | EmptyString => false
                                 | String b3 s4 =>
                                     Utf8.between 240 244 c && Utf8.second4 c b1
                                     && Utf8.cont b2 && Utf8.cont b3 && Utf8.valid s4
                                 end
                        end
               end).
  assert (Utf8.between 0 127 c = true) as ->; [|auto].
  unfold Utf8.between. apply andb_true_iff. split; apply N.leb_le; lia.
Qed.

(** X12.  A regular file that holds only ASCII bytes always decodes: for a
    valid name the loader returns its content, with the line endings
    translated. *)
Theorem ascii_file_loads stat_fault d t data :
  is_safe_task_name t = true →
  child d (t +:+ ".txt") = Some (RegularFile data) →
  Forall (λ c, (N_of_ascii c < 128)%N) (Py.chars data) →
  read_prompt_content stat_fault d t = Return (Utf8.universal_newlines data).
Proof.
  intros Hs Hc Hascii. apply (read_text stat_fault d t data); [done..|].
  unfold Utf8.decode. by rewrite ascii_is_utf8.
Qed.

Lemma ascii_file_loads_witness :
  read_prompt_content (λ _, None) (Listing [("create_prd.txt", RegularFile "# PRD")]) "create_prd"
  = Return "# PRD".
Proof.
  apply (ascii_file_loads (λ _, None) (Listing [("create_prd.txt", RegularFile "# PRD")])
           "create_prd" "# PRD"); [reflexivity|reflexivity|].
  apply (bool_decide_unpack _). by vm_compute.
Defined.

(** ** The description of a tool *)

Lemma replace_len a b s : Py.len (Py.replace a b s) = Py.len s.
Proof. induction s as [|c s IH]; [done|]. simpl. by rewrite IH. Qed.

Lemma replace_removes a b s : a ≠ b → a ∉ Py.chars (Py.replace a b s).
Proof.
  intros Hab. induction s as [|c s IH]; [by intros ?%elem_of_nil|].
  change (Py.replace a b (String c s))
    with (String (if Ascii.eqb c a then b else c) (Py.replace a b s)).
  rewrite chars_cons, not_elem_of_cons. split; [|done].
  destruct (Ascii.eqb_spec c a); congruence.
Qed.

Lemma replace_back a b s : b ∉ Py.chars s → Py.replace b a (Py.replace a b s) = s.
Proof.
  induction s as [|c s IH]; [done|].
  rewrite chars_cons, not_elem_of_cons. intros [Hc Hs].
  change (Py.replace a b (String c s))
    with (String (if Ascii.eqb c a then b else c) (Py.replace a b s)).
  change (Py.replace b a (String ?x ?y))
    with (String (if Ascii.eqb x b then a else x) (Py.replace b a y)).
  rewrite IH by done. f_equal.
  destruct (Ascii.eqb_spec c a) as [->|Hca].
  - by rewrite Ascii.eqb_refl.
  - destruct (Ascii.eqb_spec c b); congruence.
Qed.

(** X13.  The description of a per-resource tool shows the prompt name
    twice, as it is and with every underscore turned into a space.  The
    second form is as long as the name and has no underscore; for a name of
    the catalog, which has no space, turning the spaces back into
    underscores gives the name again. *)
Theorem prompt_tool_description n :
  description (prompt_tool n)
  = "Fetches the '" +:+ n
      +:+ "' prompt template. This provides a structured template for "
      +:+ Py.replace "_" " " n +:+ " tasks."
  ∧ Py.len (Py.replace "_" " " n) = Py.len n
  ∧ ("_"%char ∉ Py.chars (Py.replace "_" " " n))
  ∧ (is_safe_task_name n = true →
     Py.replace " " "_" (Py.replace "_" " " n) = n).
Proof.
  split_and!; [done|apply replace_len|by apply replace_removes|].
  intros [_ Hall]%is_safe_chars. apply replace_back.
  intros Hin. eapply Forall_forall in Hall; [|done].
  unfold word_char in Hall. simpl in Hall. lia.
Qed.

Lemma prompt_tool_description_witness :
  Py.replace " " "_" (Py.replace "_" " " "create_prd") = "create_prd".
Proof.
  apply (prompt_tool_description "create_prd"). reflexivity.
Defined.

(** ** The configuration generator *)

(** X14.  The server's catalog is what is left of the generator's list of
    prompts after dropping the names the validator rejects, sorted: each
    served name is reported by the generator, the generator may report more
    names, and never fewer. *)
Theorem catalog_from_check_prompts d :
  get_available_prompts d
  = Py.sorted (filter (λ t, Is_true (is_safe_task_name t)) (check_prompts d))
  ∧ (∀ t, t ∈ get_available_prompts d ↔
          t ∈ check_prompts d ∧ is_safe_task_name t = true)
  ∧ length (get_available_prompts d) ≤ length (check_prompts d).
Proof.
  assert (get_available_prompts d
          = Py.sorted (filter (λ t, Is_true (is_safe_task_name t)) (check_prompts d)))
    as Heq.
  { destruct d as [| |entries]; [done..|]. apply get_available_prompts_listing. }
  split_and!; [done|..]; rewrite Heq; unfold Py.sorted.
  - intros t. rewrite merge_sort_Permutation, list_elem_of_filter, Is_true_true.
    tauto.
  - rewrite merge_sort_Permutation. apply length_filter.
Qed.

(** X15.  [install_dependencies] returns true exactly when the
    requirements file exists and one of the two pip commands returns: the
    installation for the user, or else the one with
    [--break-system-packages]. *)
Theorem install_dependencies_result executable requirements_file run
    requirements_exists c :
  (install_dependencies executable requirements_file run requirements_exists c).1
  = true ↔
  requirements_exists = true
  ∧ (run [executable; "-m"; "pip"; "install"; "--user"; "-r"; requirements_file]
     = Completed
     ∨ run [executable; "-m"; "pip"; "install"; "--break-system-packages"; "-r";
            requirements_file]
       = Completed).
Proof.
  unfold install_dependencies, install_methods.
  destruct requirements_exists; simpl; [|by split; [|intros [? _]]].
  destruct (run [executable; "-m"; "pip"; "install"; "--user"; "-r";
                 requirements_file]) as [|stderr1 m1|m1] eqn:H1;
    [by split; [auto|]|..];
    (destruct (run [executable; "-m"; "pip"; "install"; "--break-system-packages";
                    "-r"; requirements_file]) as [|stderr2 m2|m2] eqn:H2);
    repeat case_match; simplify_eq/=;
    (split; [done || auto|]); by intros [_ [?|?]].
Qed.

Lemma install_commands_eq executable requirements_file run
    requirements_exists c :
  commands
    (install_dependencies executable requirements_file run requirements_exists c).2
  = commands c ++
    (if requirements_exists then
       [executable; "-m"; "pip"; "install"; "--user"; "-r"; requirements_file]
         :: match run [executable; "-m"; "pip"; "install"; "--user"; "-r";
                       requirements_file] with
            | Completed => []
            | _ =>
                [[executable; "-m"; "pip"; "install"; "--break-system-packages";
                  "-r"; requirements_file]]
            end
     else []).
Proof.
  unfold install_dependencies, install_methods.
  destruct requirements_exists; simpl; [|by rewrite app_nil_r].
  destruct (run [executable; "-m"; "pip"; "install"; "--user"; "-r";
                 requirements_file]) as [|stderr1 m1|m1] eqn:H1; [done|..];
    (destruct (run [executable; "-m"; "pip"; "install"; "--break-system-packages";
                    "-r"; requirements_file]) as [|stderr2 m2|m2] eqn:H2);
    repeat case_match; simplify_eq/=; by rewrite <-?app_assoc.
Qed.

(** X16.  The commands [install_dependencies] runs: none without a
    requirements file; otherwise the installation for the user, and after
    it the one with [--break-system-packages] only when the first did not
    return.  It runs nothing else and nothing twice. *)
Theorem install_dependencies_commands executable requirements_file run
    requirements_exists c :
  commands
    (install_dependencies executable requirements_file run requirements_exists c).2
  = commands c ++
    (if requirements_exists then
       [executable; "-m"; "pip"; "install"; "--user"; "-r"; requirements_file]
         :: match run [executable; "-m"; "pip"; "install"; "--user"; "-r";
                       requirements_file] with
            | Completed => []
            | _ =>
                [[executable; "-m"; "pip"; "install"; "--break-system-packages";
                  "-r"; requirements_file]]
            end
     else []).
Proof. apply install_commands_eq. Qed.

Lemma commands_print_prompts prompts c :
  commands (print_prompts prompts c) = commands c.
Proof.
  revert c. induction prompts as [|p prompts IH]; intros c; [done|].
  simpl. by rewrite IH.
Qed.

(** X17.  The generator runs a pip command only when [import mcp] fails:
    then it runs what [install_dependencies] runs, and nothing else; when
    the package can be imported it runs no command at all. *)
Theorem generator_main_commands executable requirements_file run project_path
    server_script json_dumps mcp_importable requirements_exists
    server_script_exists prompts_state c :
  commands
    (generator_main executable requirements_file run project_path server_script
       json_dumps mcp_importable requirements_exists server_script_exists
       prompts_state c)
  = commands c ++
    (if mcp_importable then []
     else if requirements_exists then
       [executable; "-m"; "pip"; "install"; "--user"; "-r"; requirements_file]
         :: match run [executable; "-m"; "pip"; "install"; "--user"; "-r";
                       requirements_file] with
            | Completed => []
            | _ =>
                [[executable; "-m"; "pip"; "install"; "--break-system-packages";
                  "-r"; requirements_file]]
            end
     else []).
Proof.
  unfold generator_main, generate_mcp_config.
  destruct mcp_importable; simpl.
  - rewrite app_nil_r.
    destruct server_script_exists; simpl; [|done].
    destruct (check_prompts prompts_state); simpl; [done|].
    by rewrite commands_print_prompts.
  - pose proof (install_commands_eq executable requirements_file run
                  requirements_exists
                  (print "📦 MCP dependencies not found. Installing..."
                     (print (str_repeat "=" 50)
                        (print "🚀 MCP Product Documentation Server" c)))) as Hc.
    destruct (install_dependencies _ _ _ _ _) as [[|] c'] eqn:Hi; simpl in *;
      [|done].
    destruct server_script_exists; simpl; [|done].
    destruct (check_prompts prompts_state); simpl; [done|].
    by rewrite commands_print_prompts.
Qed.

Lemma stdout_print_prompts prompts c :
  stdout (print_prompts prompts c)
  = stdout c ++ (String.append "   • " <$> prompts).
Proof.
  revert c. induction prompts as [|p prompts IH]; intros c; simpl.
  - by rewrite app_nil_r.
  - rewrite IH. simpl. by rewrite <-app_assoc.
Qed.

Ltac no_line H :=
  repeat (apply elem_of_cons in H as [H|H]; [discriminate H|]);
  by apply elem_of_nil in H.

Ltac find_line :=
  repeat first
    [ by left
    | right
    | apply elem_of_app; first [by right; left | left] ].

(** X18.  Started with nothing printed, the generator prints the heading of
    the configuration exactly when the dependencies are there ([import mcp]
    succeeds, or the requirements file exists and one of the two pip
    commands returns) and the server script exists. *)
Theorem generator_main_prints_configuration executable requirements_file run
    project_path server_script json_dumps mcp_importable requirements_exists
    server_script_exists prompts_state :
  "📋 MCP Configuration"
    ∈ stdout
        (generator_main executable requirements_file run project_path
           server_script json_dumps mcp_importable requirements_exists
           server_script_exists prompts_state (mkConsole [] []))
  ↔ (mcp_importable = true
     ∨ requirements_exists = true
       ∧ (run [executable; "-m"; "pip"; "install"; "--user"; "-r"; requirements_file]
          = Completed
          ∨ run [executable; "-m"; "pip"; "install"; "--break-system-packages";
                 "-r"; requirements_file]
            = Completed))
    ∧ server_script_exists = true.
Proof.
  unfold generator_main, generate_mcp_config, install_dependencies, install_methods.
  destruct mcp_importable, requirements_exists, server_script_exists; simpl.
  all: repeat case_match; simplify_eq/=.
  all: rewrite ?stdout_print_prompts; simpl.
  all: try (split; [intros H; no_line H | by intros [[?|[? [?|?]]] ?]]).
  all: try (split; [intros _; split; [auto|done] | intros _; find_line]).
Qed.

(** ** Names the loader refuses *)

(** X20.  A name the validator rejects is refused with the same text by
    both ways of fetching, whatever the directory holds: by the tool named
    after it, and by the fetch by name when the name is not empty. *)
Theorem invalid_name_is_refused (msg : exn → string) stat_fault d t
    (args : gmap string pyval) :
  is_safe_task_name t = false →
  read_prompt_content stat_fault d t = Raise (ValueError ("Invalid task name: " +:+ t))
  ∧ call_tool msg stat_fault d ("get_prompt_" +:+ t) args
    = [text_content ("Error: Invalid task name: " +:+ t)]
  ∧ (args !! "task_name" = Some (PyStr t) → t ≠ "" →
     call_tool msg stat_fault d "get_prompt_by_name" args
     = [text_content ("Error: Invalid task name: " +:+ t)]).
Proof.
  intros Hs. split_and!.
  - by apply read_invalid.
  - rewrite call_prefixed.
    + cbv zeta. rewrite (slice_from_app "get_prompt_" t).
      by rewrite read_invalid.
    + apply startswith_spec. eauto.
    + intros Heq.
      apply (inj (String.append "get_prompt_") t "by_name") in Heq as ->.
      done.
  - intros Ha Ht. rewrite (call_by_name_str msg stat_fault d args t Ha Ht).
    by rewrite read_invalid.
Qed.

Lemma invalid_name_is_refused_witness :
  call_tool (λ _, "") (λ _, None) (Listing [("passwd.txt", RegularFile "root")])
    "get_prompt_../passwd" ∅
  = [text_content "Error: Invalid task name: ../passwd"].
Proof.
  apply (invalid_name_is_refused (λ _, "") (λ _, None)
           (Listing [("passwd.txt", RegularFile "root")]) "../passwd" ∅).
  reflexivity.
Defined.

(** X21.  A valid name that the directory does not hold and whose path the
    system refuses with an error other than "missing", as it does for a
    name too long for a file name, is not answered as not found: the error
    of [Path.exists()] leaves the loader as it is, and the fetch by name
    answers [Error: ] followed by the system's message. *)
Theorem stat_fault_is_not_not_found (msg : exn → string) stat_fault d t
    os_message (args : gmap string pyval) :
  is_safe_task_name t = true →
  child d (t +:+ ".txt") = None →
  stat_fault (t +:+ ".txt") = Some os_message →
  path_exists stat_fault d (t +:+ ".txt") = Raise (IOError os_message)
  ∧ read_prompt_content stat_fault d t = Raise (IOError os_message)
  ∧ (args !! "task_name" = Some (PyStr t) →
     call_tool msg stat_fault d "get_prompt_by_name" args
     = [text_content ("Error: " +:+ os_message)]).
Proof.
  intros Hs Hc Hf. split_and!.
  - unfold path_exists, stat. by rewrite Hc, Hf.
  - by apply read_stat_fault.
  - intros Ha.
    assert (t ≠ "") as Ht by (by intros ->).
    rewrite (call_by_name_str msg stat_fault d args t Ha Ht).
    by rewrite (read_stat_fault stat_fault d t os_message).
Qed.

Lemma stat_fault_is_not_not_found_witness :
  call_tool (λ _, "")
    (λ nm, if (255 <? Py.len nm)%nat then Some "[Errno 36] File name too long" else None)
    (Listing [("create_prd.txt", RegularFile "# PRD")])
    "get_prompt_by_name" {[ "task_name" := PyStr (str_repeat "a" 252) ]}
  = [text_content "Error: [Errno 36] File name too long"].
Proof.
  apply (stat_fault_is_not_not_found (λ _, "")
           (λ nm, if (255 <? Py.len nm)%nat
                  then Some "[Errno 36] File name too long" else None)
           (Listing [("create_prd.txt", RegularFile "# PRD")])
           (str_repeat "a" 252) "[Errno 36] File name too long"
           {[ "task_name" := PyStr (str_repeat "a" 252) ]});
    by vm_compute.
Defined.
